(** * Beacon fixture generation commands of the relayer

    A shallow embedding of [relayer/cmd/generate_beacon_data.go]: the two
    cobra commands [generate-beacon-checkpoint] and [generate-beacon-data],
    their helpers [writeJSONToFile] and [writeBenchmarkDataFile], and the
    collaborators they call (flag set, viper, the beacon syncer, the JSON and
    SCALE codecs, mustache, the file system, the logger).

    The collaborators are answers of a [World]; every call the commands make
    is recorded, in program order, in a trace of [Event]s. *)

From Stdlib Require Import ZArith NArith Strings.Ascii Strings.Byte.
From stdpp Require Import base strings gmap list.

Local Open Scope Z_scope.

(** ** Machine integers *)

Module U64.
Definition modulus : Z := 2 ^ 64.
Definition wrap (z : Z) : Z := z mod modulus.
Definition add (a b : Z) : Z := wrap (a + b).
Definition sub (a b : Z) : Z := wrap (a - b).
End U64.

Definition bytes := list byte.

(** ** Errors

    Go [error] values.  [fmt.Errorf] keeps its format string and its
    operands, so that a theorem can say which values an error names. *)

Inductive error :=
| errors_New (msg : string)
| Errorf_s (format : string) (s : string)
| Errorf_ss (format : string) (s1 s2 : string)
| Errorf_w (format : string) (cause : error)
| Errorf_dd (format : string) (a b : Z).

Inductive result (A : Type) :=
| Ok (a : A)
| Err (e : error).
Arguments Ok {A} a.
Arguments Err {A} e.

(** ** The flag set of a command (spf13/pflag)

    [FlagSet.formal] is a Go map from flag name to flag; names are compared
    as they are written (pflag's default normalisation is the identity). *)

Inductive FlagValue :=
| StringFlag (s : string)
| BoolFlag (b : bool).

Definition FlagValue_Type (v : FlagValue) : string :=
  match v with StringFlag _ => "string" | BoolFlag _ => "bool" end.

Definition getFlagType (f : gmap string FlagValue) (name ftype : string)
  : result FlagValue :=
  match f !! name with
  | None => Err (Errorf_s "flag accessed but not defined: %s" name)
  | Some v =>
      if String.eqb (FlagValue_Type v) ftype then Ok v
      else Err (Errorf_ss "trying to get %s value of flag of type %s"
                          ftype (FlagValue_Type v))
  end.

Definition GetString (f : gmap string FlagValue) (name : string)
  : string * option error :=
  match getFlagType f name "string" with
  | Ok (StringFlag s) => (s, None)
  | Ok (BoolFlag _) => (String.EmptyString, None)
  | Err e => (String.EmptyString, Some e)
  end.

Definition GetBool (f : gmap string FlagValue) (name : string)
  : bool * option error :=
  match getFlagType f name "bool" with
  | Ok (BoolFlag b) => (b, None)
  | Ok (StringFlag _) => (false, None)
  | Err e => (false, Some e)
  end.

(** strconv.ParseBool, used by a bool flag's [Set]. *)
Definition ParseBool (s : string) : option bool :=
  if bool_decide (s ∈ ["1"; "t"; "T"; "TRUE"; "true"; "True"]) then Some true
  else if bool_decide (s ∈ ["0"; "f"; "F"; "FALSE"; "false"; "False"]) then Some false
  else None.

(** [FlagSet.Set]: the value given on the command line for a defined flag;
    an undefined flag or an unparsable value is a usage error.  *)
Definition FlagSet_Set (f : gmap string FlagValue) (name value : string)
  : option (gmap string FlagValue) :=
  match f !! name with
  | None => None
  | Some (StringFlag _) => Some (<[name := StringFlag value]> f)
  | Some (BoolFlag _) =>
      match ParseBool value with
      | Some b => Some (<[name := BoolFlag b]> f)
      | None => None
      end
  end.

(** The operator's [--name=value] arguments, applied left to right. *)
Fixpoint ParseFlags (f : gmap string FlagValue) (args : list (string * string))
  : option (gmap string FlagValue) :=
  match args with
  | [] => Some f
  | (name, value) :: rest =>
      match FlagSet_Set f name value with
      | Some f' => ParseFlags f' rest
      | None => None
      end
  end.

(** The flags the two commands declare, with their defaults. *)
Definition generateBeaconDataCmd : gmap string FlagValue :=
  <["url" := StringFlag "http://127.0.0.1:9596"]>
    (<["spec" := StringFlag String.EmptyString]> ∅).

Definition generateBeaconCheckpointCmd : gmap string FlagValue :=
  <["export-json" := BoolFlag true]>
    (<["url" := StringFlag "http://127.0.0.1:9596"]>
       (<["spec" := StringFlag String.EmptyString]> ∅)).

(** ** Network spec (package config) *)

Inductive Spec := Mainnet | Minimal.

(** Modelled from the spec: [config.ToSpec], [Spec.ToString] and
    [Spec.IsMainnet] are not among the sources; the spec identifier is
    [mainnet] or [minimal], anything else is a configuration error. *)
Definition ToSpec (spec : string) : result Spec :=
  if String.eqb spec "mainnet" then Ok Mainnet
  else if String.eqb spec "minimal" then Ok Minimal
  else Err (errors_New "spec is not a valid value").

Definition Spec_ToString (s : Spec) : string :=
  match s with Mainnet => "mainnet" | Minimal => "minimal" end.

Definition Spec_IsMainnet (s : Spec) : bool :=
  match s with Mainnet => true | Minimal => false end.

Record SpecSettings := {
  SlotsInEpoch : Z;
  EpochsPerSyncCommitteePeriod : Z;
  MaxSlotsPerHistoricalRoot : Z
}.

Record Config := {
  MainnetSettings : SpecSettings;
  MinimalSettings : SpecSettings
}.

(** Modelled from the spec: [Config.GetSpecSettingsBySpec] maps the spec
    identifier to its timing constants. *)
Definition GetSpecSettingsBySpec (conf : Config) (s : Spec) : SpecSettings :=
  match s with
  | Mainnet => MainnetSettings conf
  | Minimal => MinimalSettings conf
  end.

(** ** Artifacts *)

(** Modelled from the spec: the type declarations of packages [scale],
    [json] and [cache] are not among the sources.  The records have the
    fields the commands read and, for a JSON artifact, its hash-valued
    fields (block roots, state roots, signature bytes, Merkle proof entries)
    as a list of strings. *)

Record BeaconHeader := {
  Slot : Z;
  HeaderRoots : list string
}.

Record CheckPoint := {
  Header : BeaconHeader;
  CheckPointHashes : list string
}.

Record Update := {
  AttestedHeader : BeaconHeader;
  SignatureSlot : Z;
  UpdateHashes : list string
}.

Record HeaderUpdate := {
  HeaderUpdateHashes : list string
}.

Record ScaleBeaconHeader := { ScaleSlot : Z }.

Record ScaleCheckPoint := { CheckPointBody : bytes }.

Record ScaleUpdatePayload := {
  ScaleFinalizedHeader : ScaleBeaconHeader;
  PayloadBody : bytes
}.

Record ScaleUpdate := {
  Payload : ScaleUpdatePayload;
  FinalizedHeaderBlockRoot : bytes;
  BlockRootsTree : list bytes
}.

Record ScaleHeaderUpdate := { HeaderUpdateBody : bytes }.

(** cache.Proof *)
Record Proof := {
  Proof_FinalizedBlockRoot : bytes;
  Proof_BlockRootsTree : list bytes;
  Proof_Slot : Z
}.

(** The [Data] struct handed to the template. *)
Record Data := {
  Data_CheckpointUpdate : CheckPoint;
  Data_SyncCommitteeUpdate : Update;
  Data_FinalizedHeaderUpdate : Update;
  Data_HeaderUpdate : HeaderUpdate
}.

(** The [interface{}] argument of [writeJSONToFile]. *)
Inductive Artifact :=
| ArtCheckPoint (c : CheckPoint)
| ArtUpdate (u : Update)
| ArtHeaderUpdate (h : HeaderUpdate).

(** syncer.New's arguments *)
Record Syncer := {
  syncer_endpoint : string;
  syncer_slotsInEpoch : Z;
  syncer_epochsPerSyncCommitteePeriod : Z;
  syncer_maxSlotsPerHistoricalRoot : Z;
  syncer_activeSpec : Spec
}.

Definition syncer_New (endpoint : string) (slotsInEpoch epochs maxSlots : Z)
  (activeSpec : Spec) : Syncer :=
  {| syncer_endpoint := endpoint;
     syncer_slotsInEpoch := slotsInEpoch;
     syncer_epochsPerSyncCommitteePeriod := epochs;
     syncer_maxSlotsPerHistoricalRoot := maxSlots;
     syncer_activeSpec := activeSpec |}.

(** ** Hex canonicalisation (package json) *)

(** Modelled from the spec: [RemoveLeadingZeroHashes] is not among the
    sources.  It visits every hash-valued field and removes the fixed
    two-character prefix [0x] if present. *)
Definition removeLeadingZeroHash (s : string) : string :=
  if String.prefix "0x" s then String.substring 2 (String.length s - 2) s
  else s.

Definition BeaconHeader_RemoveLeadingZeroHashes (h : BeaconHeader) : BeaconHeader :=
  {| Slot := Slot h;
     HeaderRoots := removeLeadingZeroHash <$> HeaderRoots h |}.

Definition CheckPoint_RemoveLeadingZeroHashes (c : CheckPoint) : CheckPoint :=
  {| Header := BeaconHeader_RemoveLeadingZeroHashes (Header c);
     CheckPointHashes := removeLeadingZeroHash <$> CheckPointHashes c |}.

Definition Update_RemoveLeadingZeroHashes (u : Update) : Update :=
  {| AttestedHeader := BeaconHeader_RemoveLeadingZeroHashes (AttestedHeader u);
     SignatureSlot := SignatureSlot u;
     UpdateHashes := removeLeadingZeroHash <$> UpdateHashes u |}.

Definition HeaderUpdate_RemoveLeadingZeroHashes (h : HeaderUpdate) : HeaderUpdate :=
  {| HeaderUpdateHashes := removeLeadingZeroHash <$> HeaderUpdateHashes h |}.

(** ** encoding/hex *)

Definition hextable : string := "0123456789abcdef".

Definition hexdigit (n : N) : ascii :=
  default "0"%char (String.get (N.to_nat n) hextable).

(** hex.EncodeToString: two digits per byte, high nibble first. *)
Fixpoint hex_EncodeToString (src : bytes) : string :=
  match src with
  | [] => String.EmptyString
  | v :: rest =>
      String (hexdigit (N.shiftr (Byte.to_N v) 4))
        (String (hexdigit (N.land (Byte.to_N v) 15))
           (hex_EncodeToString rest))
  end.

(** ** The world the commands run in

    One answer per call the commands can make.  The methods of the syncer,
    [ComputeSyncPeriodAtSlot] among them, and the [ToJSON] conversions are
    code of the repository that is not among the sources: they are taken as
    they answer.  Calls that return a value the command uses even when the
    error is set are pairs; the others are [result]s. *)

Record World := {
  (* viper *)
  viper_ReadInConfig : string → option error;
  viper_Unmarshal : result Config;
  (* syncer *)
  GetCheckpoint : Syncer → result ScaleCheckPoint;
  ComputeSyncPeriodAtSlot : Syncer → Z → Z;
  GetSyncCommitteePeriodUpdate : Syncer → Z → result ScaleUpdate;
  GetFinalizedUpdate : Syncer → result ScaleUpdate;
  GetNextHeaderUpdateBySlotWithAncestryProof :
    Syncer → Z → Proof → result ScaleHeaderUpdate;
  (* scale -> json *)
  CheckPoint_ToJSON : ScaleCheckPoint → CheckPoint;
  Update_ToJSON : ScaleUpdatePayload → Update;
  HeaderUpdate_ToJSON : ScaleHeaderUpdate → HeaderUpdate;
  (* codecs and template engine *)
  types_EncodeToBytes : ScaleCheckPoint → bytes * option error;
  json_MarshalIndent : Artifact → bytes * option error;
  mustache_RenderFile : string → Data → string * option error;
  (* file system *)
  os_OpenFile : string → option error;
  File_Write : string → bytes → option error
}.

Inductive Event :=
| EvReadInConfig (path : string)
| EvGetCheckpoint (s : Syncer)
| EvGetSyncCommitteePeriodUpdate (s : Syncer) (period : Z)
| EvGetFinalizedUpdate (s : Syncer)
| EvGetNextHeaderUpdate (s : Syncer) (slot : Z) (checkPoint : Proof)
| EvSleep (nanoseconds : Z)
| EvOpenFile (path : string)
| EvWrite (path : string) (contents : bytes)
| EvClose (path : string)
| EvRenderFile (template : string) (data : Data)
| EvPrintln (line : string)
| EvLogInfo (msg : string)
| EvLogError (msg : string) (e : error).

(** ** Computations: a trace of calls and a value or an error *)

Definition Run (A : Type) : Type := list Event * result A.

Definition ret {A} (a : A) : Run A := ([], Ok a).

Definition fail {A} (e : error) : Run A := ([], Err e).

(** The calls [t] were made before [m] runs. *)
Definition prepend {A} (t : list Event) (m : Run A) : Run A := (t ++ m.1, m.2).

Definition bind {A B} (m : Run A) (k : A → Run B) : Run B :=
  match m with
  | (t, Ok a) => prepend t (k a)
  | (t, Err e) => (t, Err e)
  end.

Notation "'let*' x ':=' m 'in' k" := (bind m (fun x => k))
  (at level 10, x name, m at level 100, k at level 200).
Notation "'do' m 'in' k" := (bind m (fun _ => k))
  (at level 10, m at level 100, k at level 200).

Definition emit (ev : Event) : Run unit := ([ev], Ok tt).

(** A call that is recorded and whose answer decides between value and error. *)
Definition call {A} (ev : Event) (r : result A) : Run A := ([ev], r).

(** The same for a call that answers with an [error] only. *)
Definition callE (ev : Event) (o : option error) : Run unit :=
  ([ev], match o with None => Ok tt | Some e => Err e end).

(** [v, err := f(); if err != nil { return err }] for an unrecorded answer. *)
Definition check {A} (p : A * option error) : Run A :=
  match p with (v, None) => ret v | (_, Some e) => fail e end.

Definition ofResult {A} (r : result A) : Run A := ([], r).

(** [if err != nil { return fmt.Errorf(format, err) }] around a step. *)
Definition wrapf {A} (format : string) (m : Run A) : Run A :=
  (m.1, match m.2 with Ok a => Ok a | Err e => Err (Errorf_w format e) end).

(** [err = f()] with no test of [err] afterwards: the step runs, its error
    is the value. *)
Definition attempt {A} (m : Run A) : Run (option error) :=
  (m.1, Ok (match m.2 with Ok _ => None | Err e => Some e end)).

(** [defer f.Close()]: runs when the enclosing function returns, on every
    path. *)
Definition defer {A} (ev : Event) (m : Run A) : Run A := (m.1 ++ [ev], m.2).

(** ** The two file writers *)

Definition pathToBeaconBenchmarkData : string :=
  "parachain/pallets/ethereum-beacon-client/src/benchmarking".
Definition pathToBenchmarkDataTemplate : string :=
  "parachain/templates/benchmark-fixtures.mustache".
Definition pathToBeaconTestFixtureFiles : string :=
  "parachain/pallets/ethereum-beacon-client/tests/fixtures".

Definition writeJSONToFile (w : World) (data : Artifact) (filename : string)
  : Run unit :=
  let file := (json_MarshalIndent w data).1 in
  let path := pathToBeaconTestFixtureFiles +:+ "/" +:+ filename in
  do wrapf "create file: %w" (callE (EvOpenFile path) (os_OpenFile w path)) in
  defer (EvClose path)
    (wrapf "write to file: %w" (callE (EvWrite path file) (File_Write w path file))).

Definition writeBenchmarkDataFile (w : World) (filename fileContents : string)
  : Run unit :=
  let path := pathToBeaconBenchmarkData +:+ "/" +:+ filename in
  let contents := String.list_byte_of_string fileContents in
  do wrapf "create file: %w" (callE (EvOpenFile path) (os_OpenFile w path)) in
  defer (EvClose path)
    (wrapf "write to file: %w"
       (callE (EvWrite path contents) (File_Write w path contents))).

(** ** generate-beacon-checkpoint *)

Definition configFile : string := "core/packages/test/config/beacon-relay.json".

(** The function literal whose error [generateBeaconCheckpoint] logs. *)
Definition generateBeaconCheckpoint_body (w : World) (flags : gmap string FlagValue)
  : Run unit :=
  let* spec := wrapf "get active spec: %w" (check (GetString flags "spec")) in
  let* activeSpec := wrapf "get spec: %w" (ofResult (ToSpec spec)) in
  let endpoint := (GetString flags "url").1 in
  do callE (EvReadInConfig configFile) (viper_ReadInConfig w configFile) in
  let* conf := ofResult (viper_Unmarshal w) in
  let specSettings := GetSpecSettingsBySpec conf activeSpec in
  let s := syncer_New endpoint (SlotsInEpoch specSettings)
             (EpochsPerSyncCommitteePeriod specSettings)
             (MaxSlotsPerHistoricalRoot specSettings) activeSpec in
  let* checkPointScale :=
    wrapf "get initial sync: %w" (call (EvGetCheckpoint s) (GetCheckpoint w s)) in
  let exportJson := (GetBool flags "export_json").1 in
  do (if exportJson then
        let initialSync := CheckPoint_ToJSON w checkPointScale in
        wrapf "write initial sync to file: %w"
          (writeJSONToFile w (ArtCheckPoint initialSync) "dump-initial-checkpoint.json")
      else ret tt) in
  let checkPointBytes := (types_EncodeToBytes w checkPointScale).1 in
  let checkPointCallIndex := "0x3200" in
  let checkPointUpdateCall :=
    checkPointCallIndex +:+ hex_EncodeToString checkPointBytes in
  emit (EvPrintln checkPointUpdateCall).

(** What a cobra [RunE] function gives back: the calls made and the error
    returned to the caller. *)
Definition logged (msg : string) (m : Run unit) : list Event * option error :=
  match m with
  | (t, Err e) => (t ++ [EvLogError msg e], None)
  | (t, Ok _) => (t, None)
  end.

Definition generateBeaconCheckpoint (w : World) (flags : gmap string FlagValue)
  : list Event * option error :=
  logged "error generating beacon checkpoint" (generateBeaconCheckpoint_body w flags).

(** ** generate-beacon-data *)

(** The function literal whose error [generateBeaconData] logs. *)
Definition generateBeaconData_body (w : World) (flags : gmap string FlagValue)
  : Run unit :=
  let* spec := wrapf "get active spec: %w" (check (GetString flags "spec")) in
  let* activeSpec := wrapf "get spec: %w" (ofResult (ToSpec spec)) in
  let endpoint := (GetString flags "url").1 in
  do callE (EvReadInConfig configFile) (viper_ReadInConfig w configFile) in
  let* conf := ofResult (viper_Unmarshal w) in
  let specSettings := GetSpecSettingsBySpec conf activeSpec in
  do emit (EvLogInfo "connecting to beacon API") in
  let s := syncer_New endpoint (SlotsInEpoch specSettings)
             (EpochsPerSyncCommitteePeriod specSettings)
             (MaxSlotsPerHistoricalRoot specSettings) activeSpec in
  let* initialSyncScale :=
    wrapf "get initial sync: %w" (call (EvGetCheckpoint s) (GetCheckpoint w s)) in
  let initialSync := CheckPoint_ToJSON w initialSyncScale in
  let* err := attempt (writeJSONToFile w (ArtCheckPoint initialSync)
                         ("initial-checkpoint." +:+ Spec_ToString activeSpec +:+ ".json")) in
  let initialSyncHeaderSlot := Slot (Header initialSync) in
  let initialSyncPeriod := ComputeSyncPeriodAtSlot w s initialSyncHeaderSlot in
  do emit (EvLogInfo "created initial sync file") in
  do emit (EvLogInfo "downloading beacon state, this can take a few minutes...") in
  (* wait for 5 blocks *)
  do emit (EvSleep (6 * 1000000000 * 5)) in
  let syncCommitteePeriod :=
    ComputeSyncPeriodAtSlot w s (U64.add initialSyncHeaderSlot 5) in
  do (if negb (initialSyncPeriod =? syncCommitteePeriod)
      then fail (Errorf_dd "initialSyncPeriod %d should be consistent with syncCommitteePeriod %d"
                   initialSyncPeriod syncCommitteePeriod)
      else ret tt) in
  let* syncCommitteeUpdateScale :=
    wrapf "get sync committee update: %w"
      (call (EvGetSyncCommitteePeriodUpdate s syncCommitteePeriod)
            (GetSyncCommitteePeriodUpdate w s syncCommitteePeriod)) in
  let syncCommitteeUpdate := Update_ToJSON w (Payload syncCommitteeUpdateScale) in
  do wrapf "write sync committee update to file: %w"
       (writeJSONToFile w (ArtUpdate syncCommitteeUpdate)
          ("sync-committee-update." +:+ Spec_ToString activeSpec +:+ ".json")) in
  do emit (EvLogInfo "created sync committee update file") in
  do emit (EvLogInfo "downloading beacon state, this can take a few minutes...") in
  let* finalizedUpdateScale :=
    wrapf "get finalized header update: %w"
      (call (EvGetFinalizedUpdate s) (GetFinalizedUpdate w s)) in
  let finalizedUpdate := Update_ToJSON w (Payload finalizedUpdateScale) in
  do wrapf "write finalized header update to file: %w"
       (writeJSONToFile w (ArtUpdate finalizedUpdate)
          ("finalized-header-update." +:+ Spec_ToString activeSpec +:+ ".json")) in
  do emit (EvLogInfo "created finalized header update file") in
  let finalizedUpdatePeriod :=
    ComputeSyncPeriodAtSlot w s (SignatureSlot finalizedUpdate) in
  do (if negb (initialSyncPeriod =? finalizedUpdatePeriod)
      then fail (Errorf_dd "initialSyncPeriod %d should be consistent with finalizedUpdatePeriod %d"
                   initialSyncPeriod finalizedUpdatePeriod)
      else ret tt) in
  do (if Slot (AttestedHeader finalizedUpdate) <=? initialSyncHeaderSlot
      then fail (Errorf_dd "AttestedHeader slot %d should be greater than initialSyncHeaderSlot %d"
                   (Slot (AttestedHeader finalizedUpdate)) initialSyncHeaderSlot)
      else ret tt) in
  let blockUpdateSlot :=
    U64.sub (ScaleSlot (ScaleFinalizedHeader (Payload finalizedUpdateScale))) 2 in
  let checkPoint :=
    {| Proof_FinalizedBlockRoot := FinalizedHeaderBlockRoot finalizedUpdateScale;
       Proof_BlockRootsTree := BlockRootsTree finalizedUpdateScale;
       Proof_Slot := ScaleSlot (ScaleFinalizedHeader (Payload finalizedUpdateScale)) |} in
  let* headerUpdateScale :=
    wrapf "get header update: %w"
      (call (EvGetNextHeaderUpdate s blockUpdateSlot checkPoint)
            (GetNextHeaderUpdateBySlotWithAncestryProof w s blockUpdateSlot checkPoint)) in
  let headerUpdate := HeaderUpdate_ToJSON w headerUpdateScale in
  do wrapf "write block update to file: %w"
       (writeJSONToFile w (ArtHeaderUpdate headerUpdate)
          ("execution-header-update." +:+ Spec_ToString activeSpec +:+ ".json")) in
  do emit (EvLogInfo "created header update file") in
  do (if Spec_IsMainnet activeSpec then
        do emit (EvLogInfo "now updating benchmarking data files") in
        (* Rust file hexes require the 0x of hashes to be removed *)
        let initialSync := CheckPoint_RemoveLeadingZeroHashes initialSync in
        let syncCommitteeUpdate := Update_RemoveLeadingZeroHashes syncCommitteeUpdate in
        let finalizedUpdate := Update_RemoveLeadingZeroHashes finalizedUpdate in
        let headerUpdate := HeaderUpdate_RemoveLeadingZeroHashes headerUpdate in
        let data :=
          {| Data_CheckpointUpdate := initialSync;
             Data_SyncCommitteeUpdate := syncCommitteeUpdate;
             Data_FinalizedHeaderUpdate := finalizedUpdate;
             Data_HeaderUpdate := headerUpdate |} in
        do emit (EvLogInfo "rendering file using mustache") in
        do emit (EvRenderFile pathToBenchmarkDataTemplate data) in
        (* [rendered, err := mustache.RenderFile(..)]: [err] is assigned again
           below before any test of it *)
        let rendered := (mustache_RenderFile w pathToBenchmarkDataTemplate data).1 in
        let filename := "fixtures.rs" in
        do emit (EvLogInfo "writing result file") in
        writeBenchmarkDataFile w filename rendered
      else ret tt) in
  emit (EvLogInfo "done").

Definition generateBeaconData (w : World) (flags : gmap string FlagValue)
  : list Event * option error :=
  logged "error generating beacon data" (generateBeaconData_body w flags).

(** ** Reading the runs *)

(** The syncer a command builds from its flags and the configuration. *)
Definition syncerOf (flags : gmap string FlagValue) (conf : Config) (sp : Spec)
  : Syncer :=
  let specSettings := GetSpecSettingsBySpec conf sp in
  syncer_New (GetString flags "url").1 (SlotsInEpoch specSettings)
    (EpochsPerSyncCommitteePeriod specSettings)
    (MaxSlotsPerHistoricalRoot specSettings) sp.

(** The set-up steps succeed: the spec flag names [sp], and the configuration
    file is read and decoded as [conf]. *)
Definition Configured (w : World) (flags : gmap string FlagValue)
  (sp : Spec) (conf : Config) : Prop :=
  (∃ spec, GetString flags "spec" = (spec, None) ∧ ToSpec spec = Ok sp)
  ∧ viper_ReadInConfig w configFile = None
  ∧ viper_Unmarshal w = Ok conf.

Definition fixtureFile (stem : string) (sp : Spec) : string :=
  stem +:+ "." +:+ Spec_ToString sp +:+ ".json".

Definition fixturePath (stem : string) (sp : Spec) : string :=
  pathToBeaconTestFixtureFiles +:+ "/" +:+ fixtureFile stem sp.

Definition benchmarkPath : string :=
  pathToBeaconBenchmarkData +:+ "/" +:+ "fixtures.rs".

(** The files a run opens, the lines it prints, the beacon calls it makes. *)
Definition opened (t : list Event) : list string :=
  omap (λ ev, match ev with EvOpenFile p => Some p | _ => None end) t.

Definition written (t : list Event) : list (string * bytes) :=
  omap (λ ev, match ev with EvWrite p c => Some (p, c) | _ => None end) t.

Definition printed (t : list Event) : list string :=
  omap (λ ev, match ev with EvPrintln l => Some l | _ => None end) t.

Definition rendered (t : list Event) : list Data :=
  omap (λ ev, match ev with EvRenderFile _ d => Some d | _ => None end) t.

Definition syncCommitteeFetches (t : list Event) : list Z :=
  omap (λ ev, match ev with
              | EvGetSyncCommitteePeriodUpdate _ p => Some p
              | _ => None
              end) t.

Definition headerFetches (t : list Event) : list (Z * Proof) :=
  omap (λ ev, match ev with
              | EvGetNextHeaderUpdate _ slot c => Some (slot, c)
              | _ => None
              end) t.

(** A fixture write that goes through: the file is created and written. *)
Definition Writable (w : World) (data : Artifact) (path : string) : Prop :=
  os_OpenFile w path = None
  ∧ File_Write w path (json_MarshalIndent w data).1 = None.

(** The values the pipeline compares, named as in the source. *)
Definition initialSyncHeaderSlot (w : World) (cp : ScaleCheckPoint) : Z :=
  Slot (Header (CheckPoint_ToJSON w cp)).

Definition initialSyncPeriod (w : World) (s : Syncer) (cp : ScaleCheckPoint) : Z :=
  ComputeSyncPeriodAtSlot w s (initialSyncHeaderSlot w cp).

Definition syncCommitteePeriod (w : World) (s : Syncer) (cp : ScaleCheckPoint) : Z :=
  ComputeSyncPeriodAtSlot w s (U64.add (initialSyncHeaderSlot w cp) 5).

Definition finalizedUpdatePeriod (w : World) (s : Syncer) (fu : ScaleUpdate) : Z :=
  ComputeSyncPeriodAtSlot w s (SignatureSlot (Update_ToJSON w (Payload fu))).

Definition attestedSlotOf (w : World) (fu : ScaleUpdate) : Z :=
  Slot (AttestedHeader (Update_ToJSON w (Payload fu))).

Definition finalizedSlotOf (fu : ScaleUpdate) : Z :=
  ScaleSlot (ScaleFinalizedHeader (Payload fu)).

Definition proofOf (fu : ScaleUpdate) : Proof :=
  {| Proof_FinalizedBlockRoot := FinalizedHeaderBlockRoot fu;
     Proof_BlockRootsTree := BlockRootsTree fu;
     Proof_Slot := finalizedSlotOf fu |}.

(** ** The benchmark stage *)

(** All four artifacts were fetched, passed the checks, and the three
    fixtures whose write is tested were written. *)
Definition FixturesGenerated (w : World) (flags : gmap string FlagValue)
  (sp : Spec) (conf : Config) (cp : ScaleCheckPoint) (su fu : ScaleUpdate)
  (hu : ScaleHeaderUpdate) : Prop :=
  let s := syncerOf flags conf sp in
  Configured w flags sp conf
  ∧ GetCheckpoint w s = Ok cp
  ∧ initialSyncPeriod w s cp = syncCommitteePeriod w s cp
  ∧ GetSyncCommitteePeriodUpdate w s (syncCommitteePeriod w s cp) = Ok su
  ∧ Writable w (ArtUpdate (Update_ToJSON w (Payload su)))
      (fixturePath "sync-committee-update" sp)
  ∧ GetFinalizedUpdate w s = Ok fu
  ∧ Writable w (ArtUpdate (Update_ToJSON w (Payload fu)))
      (fixturePath "finalized-header-update" sp)
  ∧ initialSyncPeriod w s cp = finalizedUpdatePeriod w s fu
  ∧ initialSyncHeaderSlot w cp < attestedSlotOf w fu
  ∧ GetNextHeaderUpdateBySlotWithAncestryProof w s
      (U64.sub (finalizedSlotOf fu) 2) (proofOf fu) = Ok hu
  ∧ Writable w (ArtHeaderUpdate (HeaderUpdate_ToJSON w hu))
      (fixturePath "execution-header-update" sp).

(** The record the template is rendered with. *)
Definition benchmarkData (w : World) (cp : ScaleCheckPoint) (su fu : ScaleUpdate)
  (hu : ScaleHeaderUpdate) : Data :=
  {| Data_CheckpointUpdate :=
       CheckPoint_RemoveLeadingZeroHashes (CheckPoint_ToJSON w cp);
     Data_SyncCommitteeUpdate :=
       Update_RemoveLeadingZeroHashes (Update_ToJSON w (Payload su));
     Data_FinalizedHeaderUpdate :=
       Update_RemoveLeadingZeroHashes (Update_ToJSON w (Payload fu));
     Data_HeaderUpdate :=
       HeaderUpdate_RemoveLeadingZeroHashes (HeaderUpdate_ToJSON w hu) |}.

Definition fixturePaths (sp : Spec) : list string :=
  [fixturePath "initial-checkpoint" sp; fixturePath "sync-committee-update" sp;
   fixturePath "finalized-header-update" sp;
   fixturePath "execution-header-update" sp].

(** ** Hex strings and canonicalised artifacts *)

Definition isHexDigit (c : ascii) : bool :=
  existsb (Ascii.eqb c) (String.list_ascii_of_string hextable).

Fixpoint allHex (s : string) : bool :=
  match s with
  | String.EmptyString => true
  | String c rest => isHexDigit c && allHex rest
  end.

(** A hash as it is written in an artifact: hex digits, bare or after [0x]. *)
Definition isHash (s : string) : bool :=
  allHex s
  || (String.prefix "0x" s && allHex (String.substring 2 (String.length s - 2) s)).

Definition Artifact_RemoveLeadingZeroHashes (x : Artifact) : Artifact :=
  match x with
  | ArtCheckPoint c => ArtCheckPoint (CheckPoint_RemoveLeadingZeroHashes c)
  | ArtUpdate u => ArtUpdate (Update_RemoveLeadingZeroHashes u)
  | ArtHeaderUpdate h => ArtHeaderUpdate (HeaderUpdate_RemoveLeadingZeroHashes h)
  end.

(** The hash-valued fields of an artifact. *)
Definition hashFields (x : Artifact) : list string :=
  match x with
  | ArtCheckPoint c => HeaderRoots (Header c) ++ CheckPointHashes c
  | ArtUpdate u => HeaderRoots (AttestedHeader u) ++ UpdateHashes u
  | ArtHeaderUpdate h => HeaderUpdateHashes h
  end.

(** The calls made before, and after, the template is rendered. *)
Fixpoint beforeRender (t : list Event) : list Event :=
  match t with
  | [] => []
  | EvRenderFile _ _ :: _ => []
  | ev :: rest => ev :: beforeRender rest
  end.

Fixpoint afterRender (t : list Event) : list Event :=
  match t with
  | [] => []
  | EvRenderFile _ _ :: rest => rest
  | _ :: rest => afterRender rest
  end.

(** The four fixtures with the artifacts as [ToJSON] gave them. *)
Definition rawFixtures (w : World) (sp : Spec) (cp : ScaleCheckPoint)
  (su fu : ScaleUpdate) (hu : ScaleHeaderUpdate) : list (string * bytes) :=
  [(fixturePath "initial-checkpoint" sp,
    (json_MarshalIndent w (ArtCheckPoint (CheckPoint_ToJSON w cp))).1);
   (fixturePath "sync-committee-update" sp,
    (json_MarshalIndent w (ArtUpdate (Update_ToJSON w (Payload su)))).1);
   (fixturePath "finalized-header-update" sp,
    (json_MarshalIndent w (ArtUpdate (Update_ToJSON w (Payload fu)))).1);
   (fixturePath "execution-header-update" sp,
    (json_MarshalIndent w (ArtHeaderUpdate (HeaderUpdate_ToJSON w hu))).1)].

(** ** Failing calls *)

(** The call recorded by [ev] was answered with an error. *)
Definition answeredError (w : World) (ev : Event) : bool :=
  match ev with
  | EvReadInConfig path => bool_decide (is_Some (viper_ReadInConfig w path))
  | EvGetCheckpoint s =>
      match GetCheckpoint w s with Err _ => true | Ok _ => false end
  | EvGetSyncCommitteePeriodUpdate s period =>
      match GetSyncCommitteePeriodUpdate w s period with Err _ => true | Ok _ => false end
  | EvGetFinalizedUpdate s =>
      match GetFinalizedUpdate w s with Err _ => true | Ok _ => false end
  | EvGetNextHeaderUpdate s slot checkPoint =>
      match GetNextHeaderUpdateBySlotWithAncestryProof w s slot checkPoint with
      | Err _ => true
      | Ok _ => false
      end
  | EvOpenFile path => bool_decide (is_Some (os_OpenFile w path))
  | EvWrite path contents => bool_decide (is_Some (File_Write w path contents))
  | _ => false
  end.

(** The calls on the initial-checkpoint fixture, whose error is assigned and
    not tested. *)
Definition onInitialCheckpoint (ev : Event) : bool :=
  match ev with
  | EvOpenFile path | EvWrite path _ | EvClose path =>
      bool_decide (path ∈ [fixturePath "initial-checkpoint" Mainnet;
                           fixturePath "initial-checkpoint" Minimal])
  | _ => false
  end.

Definition isClose (ev : Event) : bool :=
  match ev with EvClose _ => true | _ => false end.

(** A failing call whose error the pipeline tests. *)
Definition checkedFailure (w : World) (ev : Event) : bool :=
  answeredError w ev && negb (onInitialCheckpoint ev).

(** Whenever a tested call fails, nothing but the deferred close follows it
    and the run returns an error. *)
Definition FailFast {A} (w : World) (m : Run A) : Prop :=
  ∀ t1 ev t2,
    m.1 = t1 ++ ev :: t2 →
    checkedFailure w ev = true →
    forallb isClose t2 = true ∧ ∃ e, m.2 = Err e.

(** The same, decided on a trace that is written out. *)
Fixpoint failFast {A} (w : World) (t : list Event) (r : result A) : bool :=
  match t with
  | [] => true
  | ev :: rest =>
      (if checkedFailure w ev
       then forallb isClose rest && match r with Err _ => true | Ok _ => false end
       else true)
      && failFast w rest r
  end.

(** ** A stub world

    The protocol client of the end-to-end scenarios: fixed answers, chosen by
    a [Scenario]. *)

Module Stub.

Record Scenario := {
  checkpointSlot : Z;
  attestedSlot : Z;
  signatureSlot : Z;
  finalizedSlot : Z;
  (* files that cannot be created *)
  unwritable : list string;
  marshalFails : bool;
  renderFails : bool;
  encodeFails : bool
}.

Definition config : Config :=
  {| MainnetSettings :=
       {| SlotsInEpoch := 32; EpochsPerSyncCommitteePeriod := 256;
          MaxSlotsPerHistoricalRoot := 8192 |};
     MinimalSettings :=
       {| SlotsInEpoch := 8; EpochsPerSyncCommitteePeriod := 8;
          MaxSlotsPerHistoricalRoot := 64 |} |}.

(** Modelled from the spec: [Syncer.ComputeSyncPeriodAtSlot] is not among
    the sources; the sync period of a slot is recomputed from the timing
    constants, slots per epoch times epochs per period. *)
Definition syncPeriod (s : Syncer) (slot : Z) : Z :=
  slot / (syncer_slotsInEpoch s * syncer_epochsPerSyncCommitteePeriod s).

Definition failure (b : bool) (msg : string) : option error :=
  if b then Some (errors_New msg) else None.

Definition checkpoint : ScaleCheckPoint :=
  {| CheckPointBody := [Byte.x01; Byte.xab; Byte.xff] |}.

Definition update (sc : Scenario) : ScaleUpdate :=
  {| Payload :=
       {| ScaleFinalizedHeader := {| ScaleSlot := finalizedSlot sc |};
          PayloadBody := [Byte.x10] |};
     FinalizedHeaderBlockRoot := [Byte.xaa; Byte.xbb];
     BlockRootsTree := [[Byte.x01]; [Byte.x02]] |}.

Definition headerUpdate : ScaleHeaderUpdate :=
  {| HeaderUpdateBody := [Byte.x77] |}.

Definition world (sc : Scenario) : World :=
  {| viper_ReadInConfig := λ _, None;
     viper_Unmarshal := Ok config;
     GetCheckpoint := λ _, Ok checkpoint;
     ComputeSyncPeriodAtSlot := syncPeriod;
     GetSyncCommitteePeriodUpdate := λ _ _, Ok (update sc);
     GetFinalizedUpdate := λ _, Ok (update sc);
     GetNextHeaderUpdateBySlotWithAncestryProof := λ _ _ _, Ok headerUpdate;
     CheckPoint_ToJSON := λ c,
       {| Header := {| Slot := checkpointSlot sc; HeaderRoots := ["0x01abff"] |};
          CheckPointHashes := ["0x" +:+ hex_EncodeToString (CheckPointBody c)] |};
     Update_ToJSON := λ p,
       {| AttestedHeader := {| Slot := attestedSlot sc; HeaderRoots := ["0x10"] |};
          SignatureSlot := signatureSlot sc;
          UpdateHashes := ["0x" +:+ hex_EncodeToString (PayloadBody p)] |};
     HeaderUpdate_ToJSON := λ h,
       {| HeaderUpdateHashes := ["0x" +:+ hex_EncodeToString (HeaderUpdateBody h)] |};
     types_EncodeToBytes := λ c,
       if encodeFails sc then ([], Some (errors_New "scale: unsupported value"))
       else (CheckPointBody c, None);
     json_MarshalIndent := λ a,
       if marshalFails sc then ([], Some (errors_New "json: unsupported value"))
       else (match a with
             | ArtCheckPoint _ => [Byte.x7b; Byte.x31; Byte.x7d]
             | ArtUpdate _ => [Byte.x7b; Byte.x32; Byte.x7d]
             | ArtHeaderUpdate _ => [Byte.x7b; Byte.x33; Byte.x7d]
             end, None);
     mustache_RenderFile := λ _ d,
       if renderFails sc
       then (String.EmptyString, Some (errors_New "mustache: template not found"))
       else (String.concat "," (HeaderRoots (Header (Data_CheckpointUpdate d))), None);
     os_OpenFile := λ path,
       failure (bool_decide (path ∈ unwritable sc)) "open: permission denied";
     File_Write := λ _ _, None |}.

(** Checkpoint at slot 100, attested slot 105, signature slot 106,
    finalized slot 96; nothing fails. *)
Definition scenario : Scenario :=
  {| checkpointSlot := 100; attestedSlot := 105; signatureSlot := 106;
     finalizedSlot := 96; unwritable := []; marshalFails := false;
     renderFails := false; encodeFails := false |}.

Definition withSlots (checkpointSlot attestedSlot signatureSlot finalizedSlot : Z)
  : Scenario :=
  {| checkpointSlot := checkpointSlot; attestedSlot := attestedSlot;
     signatureSlot := signatureSlot; finalizedSlot := finalizedSlot;
     unwritable := []; marshalFails := false; renderFails := false;
     encodeFails := false |}.

Definition withUnwritable (paths : list string) (sc : Scenario) : Scenario :=
  {| checkpointSlot := checkpointSlot sc; attestedSlot := attestedSlot sc;
     signatureSlot := signatureSlot sc; finalizedSlot := finalizedSlot sc;
     unwritable := paths; marshalFails := marshalFails sc;
     renderFails := renderFails sc; encodeFails := encodeFails sc |}.

(** The checkpoint is five slots or less before a mainnet period boundary
    (8192 slots). *)
Definition drift : Scenario := withSlots 8190 8200 8201 8160.

(** The attested slot is the checkpoint slot. *)
Definition equalSlot : Scenario := withSlots 100 100 106 96.

(** The same, and the finalized-header fixture cannot be created. *)
Definition stale : Scenario :=
  withUnwritable [fixturePath "finalized-header-update" Mainnet] equalSlot.

(** The signature slot is in the next mainnet period. *)
Definition otherPeriod : Scenario := withSlots 100 105 9000 96.

(** A finalized header at slot 1000, and one at slot 1. *)
Definition slot1000 : Scenario := withSlots 990 1005 1006 1000.
Definition lowSlot : Scenario := withSlots 0 1 1 1.

(** The initial-checkpoint fixture cannot be created. *)
Definition unwritableCheckpoint : Scenario :=
  withUnwritable [fixturePath "initial-checkpoint" Mainnet] scenario.

(** The template cannot be rendered. *)
Definition renderFailure : Scenario :=
  {| checkpointSlot := 100; attestedSlot := 105; signatureSlot := 106;
     finalizedSlot := 96; unwritable := []; marshalFails := false;
     renderFails := true; encodeFails := false |}.

(** The sync-committee-update fixture cannot be created. *)
Definition unwritableSync : Scenario :=
  withUnwritable [fixturePath "sync-committee-update" Mainnet] scenario.

(** The artifacts cannot be serialized; the checkpoint cannot be encoded. *)
Definition marshalFailure : Scenario :=
  {| checkpointSlot := 100; attestedSlot := 105; signatureSlot := 106;
     finalizedSlot := 96; unwritable := []; marshalFails := true;
     renderFails := false; encodeFails := false |}.

Definition encodeFailure : Scenario :=
  {| checkpointSlot := 100; attestedSlot := 105; signatureSlot := 106;
     finalizedSlot := 96; unwritable := []; marshalFails := false;
     renderFails := false; encodeFails := true |}.

Definition flags (spec : string) : gmap string FlagValue :=
  <["spec" := StringFlag spec]> generateBeaconDataCmd.

Definition checkpointFlags (spec : string) : gmap string FlagValue :=
  <["spec" := StringFlag spec]> generateBeaconCheckpointCmd.

(** The syncer both commands build for [spec = mainnet] and the default url. *)
Definition mainnetSyncer : Syncer := syncer_New "http://127.0.0.1:9596" 32 256 8192 Mainnet.
Definition minimalSyncer : Syncer := syncer_New "http://127.0.0.1:9596" 8 8 64 Minimal.

End Stub.

(** ** Reading the flags *)

(** The value a flag holds after the operator's arguments: the last one
    given for it, or its default. *)
Fixpoint lastValue (name : string) (args : list (string * string))
  (default : string) : string :=
  match args with
  | [] => default
  | (n, v) :: rest => lastValue name rest (if String.eqb n name then v else default)
  end.

(** A flag set in which the name the checkpoint command reads is defined. *)
Definition exportFlags : gmap string FlagValue :=
  <["export_json" := BoolFlag true]> (Stub.checkpointFlags "mainnet").

(** A flag set that declares [spec] only. *)
Definition noUrlFlags : gmap string FlagValue :=
  <["spec" := StringFlag "mainnet"]> ∅.

(** The file the checkpoint command exports to. *)
Definition dumpPath : string :=
  pathToBeaconTestFixtureFiles +:+ "/" +:+ "dump-initial-checkpoint.json".

(** ** Reading the printed call back *)

(** The value of a digit of [hextable], and the bytes a string of such
    digits stands for: the inverse of [hex_EncodeToString]. *)
Fixpoint indexOf (c : ascii) (s : string) : option N :=
  match s with
  | String.EmptyString => None
  | String d rest => if Ascii.eqb c d then Some 0%N else N.succ <$> indexOf c rest
  end.

Definition fromHexChar (c : ascii) : option N := indexOf c hextable.

Fixpoint unhex (s : string) : option bytes :=
  match s with
  | String.EmptyString => Some []
  | String a (String b rest) =>
      hi ← fromHexChar a;
      lo ← fromHexChar b;
      v ← Byte.of_N (16 * hi + lo);
      (v ::.) <$> unhex rest
  | String _ String.EmptyString => None
  end.

(** ** The stages of a run *)

(** The external calls a trace shows, with what identifies them. *)
Inductive Stage :=
| StConfig (path : string)
| StCheckpoint
| StOpen (path : string)
| StSleep (nanoseconds : Z)
| StSyncCommittee
| StFinalized
| StHeader
| StRender (template : string).

Definition stageOf (ev : Event) : option Stage :=
  match ev with
  | EvReadInConfig path => Some (StConfig path)
  | EvGetCheckpoint _ => Some StCheckpoint
  | EvOpenFile path => Some (StOpen path)
  | EvSleep n => Some (StSleep n)
  | EvGetSyncCommitteePeriodUpdate _ _ => Some StSyncCommittee
  | EvGetFinalizedUpdate _ => Some StFinalized
  | EvGetNextHeaderUpdate _ _ _ => Some StHeader
  | EvRenderFile template _ => Some (StRender template)
  | _ => None
  end.

Definition stages (t : list Event) : list Stage := omap stageOf t.

(** The stages of a complete run of [generateBeaconData], in program order:
    the wait is five blocks of six seconds, in nanoseconds. *)
Definition pipeline (sp : Spec) : list Stage :=
  [StConfig configFile; StCheckpoint; StOpen (fixturePath "initial-checkpoint" sp);
   StSleep 30000000000; StSyncCommittee;
   StOpen (fixturePath "sync-committee-update" sp); StFinalized;
   StOpen (fixturePath "finalized-header-update" sp); StHeader;
   StOpen (fixturePath "execution-header-update" sp)]
  ++ (if Spec_IsMainnet sp
      then [StRender pathToBenchmarkDataTemplate; StOpen benchmarkPath]
      else []).

(** The stages of a complete run of [generateBeaconCheckpoint] that exports. *)
Definition checkpointPipeline : list Stage :=
  [StConfig configFile; StCheckpoint; StOpen dumpPath].

(** The syncer a beacon call is made on. *)
Definition syncerOfEvent (ev : Event) : option Syncer :=
  match ev with
  | EvGetCheckpoint s | EvGetSyncCommitteePeriodUpdate s _
  | EvGetFinalizedUpdate s | EvGetNextHeaderUpdate s _ _ => Some s
  | _ => None
  end.

Definition syncers (t : list Event) : list Syncer := omap syncerOfEvent t.

(** ** File use *)

(** The file a file-system call is made on. *)
Definition fileOfEvent (ev : Event) : option string :=
  match ev with
  | EvOpenFile path | EvWrite path _ | EvClose path => Some path
  | _ => None
  end.

Definition closed (t : list Event) : list string :=
  omap (λ ev, match ev with EvClose p => Some p | _ => None end) t.

(** File use is bracketed: a file that cannot be opened is left alone, and
    one that is opened is written once and closed before anything else is
    called. *)
Inductive Bracketed (w : World) : list Event → Prop :=
| Bracketed_nil : Bracketed w []
| Bracketed_other ev t :
    fileOfEvent ev = None → Bracketed w t → Bracketed w (ev :: t)
| Bracketed_refused path t :
    is_Some (os_OpenFile w path) → Bracketed w t → Bracketed w (EvOpenFile path :: t)
| Bracketed_block path contents t :
    os_OpenFile w path = None → Bracketed w t →
    Bracketed w (EvOpenFile path :: EvWrite path contents :: EvClose path :: t).

(** The file at [path] was created and written in the run [t]. *)
Definition WrittenTo (w : World) (t : list Event) (path : string) : Prop :=
  ∃ contents,
    (path, contents) ∈ written t
    ∧ os_OpenFile w path = None
    ∧ File_Write w path contents = None.

(** What a run may write: for each file, the bytes and the fetches they
    come from. *)
Definition Provenance (w : World) (s : Syncer) (sp : Spec)
  (path : string) (contents : bytes) : Prop :=
  (∃ cp, GetCheckpoint w s = Ok cp
         ∧ path = fixturePath "initial-checkpoint" sp
         ∧ contents = (json_MarshalIndent w (ArtCheckPoint (CheckPoint_ToJSON w cp))).1)
  ∨ (∃ cp su, GetCheckpoint w s = Ok cp
              ∧ GetSyncCommitteePeriodUpdate w s (syncCommitteePeriod w s cp) = Ok su
              ∧ path = fixturePath "sync-committee-update" sp
              ∧ contents
                = (json_MarshalIndent w (ArtUpdate (Update_ToJSON w (Payload su)))).1)
  ∨ (∃ fu, GetFinalizedUpdate w s = Ok fu
           ∧ path = fixturePath "finalized-header-update" sp
           ∧ contents
             = (json_MarshalIndent w (ArtUpdate (Update_ToJSON w (Payload fu)))).1)
  ∨ (∃ fu hu, GetFinalizedUpdate w s = Ok fu
              ∧ GetNextHeaderUpdateBySlotWithAncestryProof w s
                  (U64.sub (finalizedSlotOf fu) 2) (proofOf fu) = Ok hu
              ∧ path = fixturePath "execution-header-update" sp
              ∧ contents
                = (json_MarshalIndent w (ArtHeaderUpdate (HeaderUpdate_ToJSON w hu))).1)
  ∨ (∃ cp su fu hu,
       GetCheckpoint w s = Ok cp
       ∧ GetSyncCommitteePeriodUpdate w s (syncCommitteePeriod w s cp) = Ok su
       ∧ GetFinalizedUpdate w s = Ok fu
       ∧ GetNextHeaderUpdateBySlotWithAncestryProof w s
           (U64.sub (finalizedSlotOf fu) 2) (proofOf fu) = Ok hu
       ∧ sp = Mainnet
       ∧ path = benchmarkPath
       ∧ contents
         = String.list_byte_of_string
             (mustache_RenderFile w pathToBenchmarkDataTemplate
                (benchmarkData w cp su fu hu)).1).

(** ** What a run logs *)




(** ** The errors of the data command *)

(** The contexts [generateBeaconData] and the two writers wrap an error in,
    and the formats of the consistency errors. *)
Definition errorContexts : list string :=
  ["get active spec: %w"; "get spec: %w"; "get initial sync: %w";
   "get sync committee update: %w"; "write sync committee update to file: %w";
   "get finalized header update: %w"; "write finalized header update to file: %w";
   "get header update: %w"; "write block update to file: %w";
   "create file: %w"; "write to file: %w"].

Definition consistencyFormats : list string :=
  ["initialSyncPeriod %d should be consistent with syncCommitteePeriod %d";
   "initialSyncPeriod %d should be consistent with finalizedUpdatePeriod %d";
   "AttestedHeader slot %d should be greater than initialSyncHeaderSlot %d"].

(** * Properties *)

(** ** Laws of the run monad *)

Section Monad.
Context {A B : Type}.

Lemma prepend_trace (t : list Event) (m : Run A) : (prepend t m).1 = t ++ m.1.
Proof. reflexivity. Qed.

Lemma prepend_result (t : list Event) (m : Run A) : (prepend t m).2 = m.2.
Proof. reflexivity. Qed.

Lemma bind_ok (m : Run A) (k : A → Run B) t a :
  m = (t, Ok a) → bind m k = prepend t (k a).
Proof. by intros ->. Qed.

Lemma bind_err (m : Run A) (k : A → Run B) t e :
  m = (t, Err e) → bind m k = (t, Err e).
Proof. by intros ->. Qed.

(** What was called before a step stays called whatever follows. *)
Lemma bind_trace_prefix (m : Run A) (k : A → Run B) :
  m.1 `prefix_of` (bind m k).1.
Proof.
  destruct m as [t [a|e]]; simpl; [by apply prefix_app_r|done].
Qed.

(** A failed step ends the run: nothing of [k] is called. *)
Lemma bind_err_trace (m : Run A) (k : A → Run B) e :
  m.2 = Err e → (bind m k).1 = m.1 ∧ (bind m k).2 = Err e.
Proof. destruct m as [t [a|e']]; simpl; [done|]. by intros [= ->]. Qed.

End Monad.

(** The calls of [writeJSONToFile]: the file is opened, and written and
    closed when it could be opened. *)
Lemma writeJSONToFile_run w data filename :
  let path := pathToBeaconTestFixtureFiles +:+ "/" +:+ filename in
  let file := (json_MarshalIndent w data).1 in
  writeJSONToFile w data filename =
    match os_OpenFile w path with
    | Some e => ([EvOpenFile path], Err (Errorf_w "create file: %w" e))
    | None =>
        ([EvOpenFile path; EvWrite path file; EvClose path],
         match File_Write w path file with
         | Some e => Err (Errorf_w "write to file: %w" e)
         | None => Ok tt
         end)
    end.
Proof.
  intros path file. unfold writeJSONToFile. fold path file.
  destruct (os_OpenFile w path) as [e|]; [reflexivity|].
  destruct (File_Write w path file) as [e|]; reflexivity.
Qed.

Lemma writeJSONToFile_ok w data filename :
  Writable w data (pathToBeaconTestFixtureFiles +:+ "/" +:+ filename) →
  writeJSONToFile w data filename =
    (let path := pathToBeaconTestFixtureFiles +:+ "/" +:+ filename in
     [EvOpenFile path; EvWrite path (json_MarshalIndent w data).1; EvClose path],
     Ok tt).
Proof.
  intros [Ho Hw]. rewrite writeJSONToFile_run. cbv zeta. by rewrite Ho, Hw.
Qed.

Lemma writeBenchmarkDataFile_run w filename fileContents :
  let path := pathToBeaconBenchmarkData +:+ "/" +:+ filename in
  let contents := String.list_byte_of_string fileContents in
  writeBenchmarkDataFile w filename fileContents =
    match os_OpenFile w path with
    | Some e => ([EvOpenFile path], Err (Errorf_w "create file: %w" e))
    | None =>
        ([EvOpenFile path; EvWrite path contents; EvClose path],
         match File_Write w path contents with
         | Some e => Err (Errorf_w "write to file: %w" e)
         | None => Ok tt
         end)
    end.
Proof.
  intros path contents. unfold writeBenchmarkDataFile. fold path contents.
  destruct (os_OpenFile w path) as [e|]; [reflexivity|].
  destruct (File_Write w path contents) as [e|]; reflexivity.
Qed.

Lemma writeFixture_run w data stem sp :
  writeJSONToFile w data (fixtureFile stem sp) =
    match os_OpenFile w (fixturePath stem sp) with
    | Some e => ([EvOpenFile (fixturePath stem sp)], Err (Errorf_w "create file: %w" e))
    | None =>
        ([EvOpenFile (fixturePath stem sp);
          EvWrite (fixturePath stem sp) (json_MarshalIndent w data).1;
          EvClose (fixturePath stem sp)],
         match File_Write w (fixturePath stem sp) (json_MarshalIndent w data).1 with
         | Some e => Err (Errorf_w "write to file: %w" e)
         | None => Ok tt
         end)
    end.
Proof. apply writeJSONToFile_run. Qed.

Lemma writeFixture_ok w data stem sp :
  Writable w data (fixturePath stem sp) →
  writeJSONToFile w data (fixtureFile stem sp) =
    ([EvOpenFile (fixturePath stem sp);
      EvWrite (fixturePath stem sp) (json_MarshalIndent w data).1;
      EvClose (fixturePath stem sp)], Ok tt).
Proof. intros [Ho Hw]. rewrite writeFixture_run. by rewrite Ho, Hw. Qed.

(** ** generate-beacon-data, stage by stage *)

Ltac run_step :=
  cbn [bind wrapf check ofResult call callE emit ret fail attempt defer fst snd negb
       Spec_IsMainnet].

Ltac unfold_names :=
  unfold initialSyncPeriod, syncCommitteePeriod, finalizedUpdatePeriod,
    attestedSlotOf, initialSyncHeaderSlot, finalizedSlotOf, proofOf in *.

Ltac run_to_checkpoint Hconf Hcp :=
  let spec := fresh "spec" in
  let Hs := fresh "Hs" in
  let Hsp := fresh "Hsp" in
  let Hr := fresh "Hr" in
  let Hu := fresh "Hu" in
  unfold_names;
  destruct Hconf as ((spec & Hs & Hsp) & Hr & Hu);
  unfold generateBeaconData_body;
  change ("initial-checkpoint." +:+ Spec_ToString ?a +:+ ".json")
    with (fixtureFile "initial-checkpoint" a);
  change ("sync-committee-update." +:+ Spec_ToString ?a +:+ ".json")
    with (fixtureFile "sync-committee-update" a);
  change ("finalized-header-update." +:+ Spec_ToString ?a +:+ ".json")
    with (fixtureFile "finalized-header-update" a);
  change ("execution-header-update." +:+ Spec_ToString ?a +:+ ".json")
    with (fixtureFile "execution-header-update" a);
  rewrite Hs; run_step; rewrite Hsp; run_step; rewrite Hr, Hu; run_step;
  match type of Hcp with
  | GetCheckpoint _ ?s = _ => change (syncer_New _ _ _ _ _) with s
  end;
  rewrite Hcp; run_step.

Ltac run_to_finalized Hconf Hcp Hperiod Hsu Hsuw Hfu :=
  run_to_checkpoint Hconf Hcp;
  apply Z.eqb_eq in Hperiod; rewrite Hperiod; run_step;
  rewrite Hsu; run_step;
  rewrite (writeFixture_ok _ _ _ _ Hsuw); run_step;
  rewrite Hfu; run_step.

Ltac run_to_header Hconf Hcp Hperiod Hsu Hsuw Hfu Hfuw Hpf Hatt :=
  run_to_finalized Hconf Hcp Hperiod Hsu Hsuw Hfu;
  rewrite (writeFixture_ok _ _ _ _ Hfuw); run_step;
  apply Z.eqb_eq in Hpf; rewrite Hpf; run_step;
  apply Z.leb_gt in Hatt; rewrite Hatt; run_step.

(** One more answer of the world, in program order. *)
Ltac case_next :=
  run_step; rewrite ?writeFixture_run, ?writeBenchmarkDataFile_run;
  match goal with
  | |- context [os_OpenFile ?w (fixturePath "initial-checkpoint" ?sp)] =>
      destruct (os_OpenFile w (fixturePath "initial-checkpoint" sp))
  | |- context [negb (?a =? ?b)] => destruct (a =? b) eqn:?
  | |- context [GetSyncCommitteePeriodUpdate ?w ?s ?p] =>
      destruct (GetSyncCommitteePeriodUpdate w s p)
  | |- context [os_OpenFile ?w (fixturePath "sync-committee-update" ?sp)] =>
      destruct (os_OpenFile w (fixturePath "sync-committee-update" sp))
  | |- context [File_Write ?w (fixturePath "sync-committee-update" ?sp) ?c] =>
      destruct (File_Write w (fixturePath "sync-committee-update" sp) c)
  | |- context [GetFinalizedUpdate ?w ?s] => destruct (GetFinalizedUpdate w s)
  | |- context [os_OpenFile ?w (fixturePath "finalized-header-update" ?sp)] =>
      destruct (os_OpenFile w (fixturePath "finalized-header-update" sp))
  | |- context [File_Write ?w (fixturePath "finalized-header-update" ?sp) ?c] =>
      destruct (File_Write w (fixturePath "finalized-header-update" sp) c)
  | |- context [if ?a <=? ?b then _ else _] => destruct (a <=? b) eqn:?
  | |- context [GetNextHeaderUpdateBySlotWithAncestryProof ?w ?s ?n ?p] =>
      destruct (GetNextHeaderUpdateBySlotWithAncestryProof w s n p)
  | |- context [os_OpenFile ?w (fixturePath "execution-header-update" ?sp)] =>
      destruct (os_OpenFile w (fixturePath "execution-header-update" sp))
  | |- context [File_Write ?w (fixturePath "execution-header-update" ?sp) ?c] =>
      destruct (File_Write w (fixturePath "execution-header-update" sp) c)
  | |- context [Spec_IsMainnet ?sp] => is_var sp; destruct sp
  | |- context [os_OpenFile ?w (pathToBeaconBenchmarkData +:+ "/" +:+ "fixtures.rs")] =>
      destruct (os_OpenFile w (pathToBeaconBenchmarkData +:+ "/" +:+ "fixtures.rs")) eqn:?
  | |- context [File_Write ?w (pathToBeaconBenchmarkData +:+ "/" +:+ "fixtures.rs") ?c] =>
      destruct (File_Write w (pathToBeaconBenchmarkData +:+ "/" +:+ "fixtures.rs") c) eqn:?
  end.

Ltac run_cases := repeat case_next; run_step.

Section DataRun.
Variables (w : World) (flags : gmap string FlagValue) (sp : Spec) (conf : Config).
Hypothesis Hconf : Configured w flags sp conf.

Local Abbreviation s := (syncerOf flags conf sp).
Local Abbreviation run := (generateBeaconData_body w flags).

Section Checkpoint.
Variable cp : ScaleCheckPoint.
Hypothesis Hcp : GetCheckpoint w s = Ok cp.

(** C1: once the checkpoint with header slot [S] is fetched, the run
    compares [syncPeriod S] with [syncPeriod (S + 5)]; when they differ it
    returns the period-drift error without fetching the sync-committee update
    and opens no fixture but the initial checkpoint's; when they are equal it
    goes on to that fetch. *)
Theorem period_drift_gate :
  (initialSyncPeriod w s cp ≠ syncCommitteePeriod w s cp →
    run.2 =
      Err (Errorf_dd "initialSyncPeriod %d should be consistent with syncCommitteePeriod %d"
             (initialSyncPeriod w s cp) (syncCommitteePeriod w s cp))
    ∧ syncCommitteeFetches run.1 = []
    ∧ opened run.1 = [fixturePath "initial-checkpoint" sp])
  ∧ (initialSyncPeriod w s cp = syncCommitteePeriod w s cp →
      EvGetSyncCommitteePeriodUpdate s (syncCommitteePeriod w s cp) ∈ run.1).
Proof.
  split; intros Hp.
  - run_to_checkpoint Hconf Hcp.
    apply Z.eqb_neq in Hp. rewrite Hp. run_step.
    rewrite writeFixture_run.
    destruct (os_OpenFile w _); repeat split; reflexivity.
  - run_to_checkpoint Hconf Hcp.
    apply Z.eqb_eq in Hp. rewrite Hp. run_step.
    destruct (GetSyncCommitteePeriodUpdate w s _);
      rewrite ?prepend_trace; set_solver.
Qed.

Section SyncCommittee.
Hypothesis Hperiod : initialSyncPeriod w s cp = syncCommitteePeriod w s cp.
Variable su : ScaleUpdate.
Hypothesis Hsu : GetSyncCommitteePeriodUpdate w s (syncCommitteePeriod w s cp) = Ok su.
Hypothesis Hsuw :
  Writable w (ArtUpdate (Update_ToJSON w (Payload su)))
    (fixturePath "sync-committee-update" sp).
Variable fu : ScaleUpdate.
Hypothesis Hfu : GetFinalizedUpdate w s = Ok fu.

(** When the finalized-header fixture cannot be written the run ends with
    the write error, before the checks, and the header update is not
    fetched. *)
Lemma finalized_write_failure e :
  (writeJSONToFile w (ArtUpdate (Update_ToJSON w (Payload fu)))
     (fixtureFile "finalized-header-update" sp)).2 = Err e →
  run.2 = Err (Errorf_w "write finalized header update to file: %w" e)
  ∧ headerFetches run.1 = [].
Proof.
  intros Hfail.
  run_to_finalized Hconf Hcp Hperiod Hsu Hsuw Hfu.
  rewrite !writeFixture_run in *.
  destruct (os_OpenFile w (fixturePath "finalized-header-update" sp));
    [|destruct (File_Write w (fixturePath "finalized-header-update" sp) _)];
    simpl in Hfail; simplify_eq; run_step;
    (destruct (os_OpenFile w (fixturePath "initial-checkpoint" sp)); split; reflexivity).
Qed.

Local Abbreviation finalizedWritten :=
  (Writable w (ArtUpdate (Update_ToJSON w (Payload fu)))
     (fixturePath "finalized-header-update" sp)).

Lemma header_fetch_called :
  finalizedWritten →
  initialSyncPeriod w s cp = finalizedUpdatePeriod w s fu →
  initialSyncHeaderSlot w cp < attestedSlotOf w fu →
  EvGetNextHeaderUpdate s (U64.sub (finalizedSlotOf fu) 2) (proofOf fu) ∈ run.1.
Proof.
  intros Hfuw Hpf Hatt.
  run_to_header Hconf Hcp Hperiod Hsu Hsuw Hfu Hfuw Hpf Hatt.
  destruct (GetNextHeaderUpdateBySlotWithAncestryProof w s _ _);
    rewrite ?prepend_trace; set_solver.
Qed.

(** C2: for every finalized update that is fetched and reaches the checks
    (its fixture is written), a signature-slot period other than that of the
    checkpoint, or an attested slot not above the checkpoint slot, ends the
    run with the consistency error that names the two compared values, and
    the header update is not fetched; when both invariants hold the run goes
    on to fetch the header update. *)
Theorem finalized_update_consistency :
  finalizedWritten →
  (initialSyncPeriod w s cp ≠ finalizedUpdatePeriod w s fu →
     run.2 = Err (Errorf_dd "initialSyncPeriod %d should be consistent with finalizedUpdatePeriod %d"
                    (initialSyncPeriod w s cp) (finalizedUpdatePeriod w s fu))
     ∧ headerFetches run.1 = [])
  ∧ (initialSyncPeriod w s cp = finalizedUpdatePeriod w s fu →
     attestedSlotOf w fu ≤ initialSyncHeaderSlot w cp →
     run.2 = Err (Errorf_dd "AttestedHeader slot %d should be greater than initialSyncHeaderSlot %d"
                    (attestedSlotOf w fu) (initialSyncHeaderSlot w cp))
     ∧ headerFetches run.1 = [])
  ∧ (initialSyncPeriod w s cp = finalizedUpdatePeriod w s fu →
     initialSyncHeaderSlot w cp < attestedSlotOf w fu →
     EvGetNextHeaderUpdate s (U64.sub (finalizedSlotOf fu) 2) (proofOf fu) ∈ run.1).
Proof.
  intros Hfuw. split; [|split].
  - intros Hpf. run_to_finalized Hconf Hcp Hperiod Hsu Hsuw Hfu.
    rewrite (writeFixture_ok _ _ _ _ Hfuw). run_step.
    apply Z.eqb_neq in Hpf. rewrite Hpf. run_step.
    rewrite writeFixture_run. destruct (os_OpenFile w _); split; reflexivity.
  - intros Hpf Hatt. run_to_finalized Hconf Hcp Hperiod Hsu Hsuw Hfu.
    rewrite (writeFixture_ok _ _ _ _ Hfuw). run_step.
    apply Z.eqb_eq in Hpf. rewrite Hpf. run_step.
    apply Z.leb_le in Hatt. rewrite Hatt. run_step.
    rewrite writeFixture_run. destruct (os_OpenFile w _); split; reflexivity.
  - by apply header_fetch_called.
Qed.

Section Finalized.
Hypothesis Hfuw :
  Writable w (ArtUpdate (Update_ToJSON w (Payload fu)))
    (fixturePath "finalized-header-update" sp).
Hypothesis Hpf : initialSyncPeriod w s cp = finalizedUpdatePeriod w s fu.
Hypothesis Hatt : initialSyncHeaderSlot w cp < attestedSlotOf w fu.

(** The header update is fetched once, for the slot two before the
    finalized one in 64-bit arithmetic, with the proof built from the
    finalized update. *)
Lemma header_fetch_once :
  headerFetches run.1 = [(U64.sub (finalizedSlotOf fu) 2, proofOf fu)].
Proof.
  run_to_header Hconf Hcp Hperiod Hsu Hsuw Hfu Hfuw Hpf Hatt.
  run_cases; reflexivity.
Qed.

(** C3: for every finalized update that passes the consistency checks, the
    header update is fetched for target slot [finalizedHeader.slot - 2]
    (998 for slot 1000), with a proof whose finalized block root,
    block-roots tree and slot are those of the finalized update. *)
Theorem header_update_target :
  headerFetches run.1 = [(U64.sub (finalizedSlotOf fu) 2, proofOf fu)]
  ∧ Proof_FinalizedBlockRoot (proofOf fu) = FinalizedHeaderBlockRoot fu
  ∧ Proof_BlockRootsTree (proofOf fu) = BlockRootsTree fu
  ∧ Proof_Slot (proofOf fu) = ScaleSlot (ScaleFinalizedHeader (Payload fu))
  ∧ (2 ≤ finalizedSlotOf fu < U64.modulus →
     U64.sub (finalizedSlotOf fu) 2 = finalizedSlotOf fu - 2)
  ∧ (finalizedSlotOf fu = 1000 → U64.sub (finalizedSlotOf fu) 2 = 998).
Proof.
  split; [apply header_fetch_once|].
  repeat split; try reflexivity.
  - intros Hr. unfold U64.sub, U64.wrap. apply Z.mod_small.
    unfold U64.modulus in *. lia.
  - intros ->. reflexivity.
Qed.

(** C10: the subtraction is 64-bit and unguarded; a finalized slot below 2
    wraps (slot 1 gives 2^64 - 1) and the wrapped slot is what the header
    update is fetched for. *)
Theorem header_update_target_wraps :
  0 ≤ finalizedSlotOf fu < 2 →
  U64.sub (finalizedSlotOf fu) 2 = finalizedSlotOf fu - 2 + 2 ^ 64
  ∧ headerFetches run.1 = [(finalizedSlotOf fu - 2 + 2 ^ 64, proofOf fu)]
  ∧ EvGetNextHeaderUpdate s (finalizedSlotOf fu - 2 + 2 ^ 64) (proofOf fu) ∈ run.1
  ∧ (finalizedSlotOf fu = 1 →
     headerFetches run.1 = [(18446744073709551615, proofOf fu)]).
Proof.
  intros Hlt.
  assert (U64.sub (finalizedSlotOf fu) 2 = finalizedSlotOf fu - 2 + 2 ^ 64) as Hw.
  { unfold U64.sub, U64.wrap, U64.modulus.
    rewrite <- (Z.mod_add _ 1) by lia. apply Z.mod_small. lia. }
  split; [exact Hw|]. split; [|split].
  - rewrite <- Hw. apply header_fetch_once.
  - rewrite <- Hw. by apply header_fetch_called.
  - intros H1. rewrite header_fetch_once, Hw, H1. reflexivity.
Qed.

End Finalized.
End SyncCommittee.
End Checkpoint.
End DataRun.

(** ** The benchmark stage, proved *)

Ltac run_to_benchmark H :=
  let Hconf := fresh "Hconf" in
  let Hcp := fresh "Hcp" in
  let Hperiod := fresh "Hperiod" in
  let Hsu := fresh "Hsu" in
  let Hsuw := fresh "Hsuw" in
  let Hfu := fresh "Hfu" in
  let Hfuw := fresh "Hfuw" in
  let Hpf := fresh "Hpf" in
  let Hatt := fresh "Hatt" in
  let Hhu := fresh "Hhu" in
  let Hhuw := fresh "Hhuw" in
  destruct H as
    (Hconf & Hcp & Hperiod & Hsu & Hsuw & Hfu & Hfuw & Hpf & Hatt & Hhu & Hhuw);
  cbv zeta in *;
  unfold_names;
  run_to_header Hconf Hcp Hperiod Hsu Hsuw Hfu Hfuw Hpf Hatt;
  rewrite Hhu; run_step;
  rewrite (writeFixture_ok _ _ _ _ Hhuw); run_step.

Lemma minimal_run w flags conf cp su fu hu :
  FixturesGenerated w flags Minimal conf cp su fu hu →
  (generateBeaconData_body w flags).2 = Ok tt
  ∧ rendered (generateBeaconData_body w flags).1 = []
  ∧ opened (generateBeaconData_body w flags).1 = fixturePaths Minimal.
Proof.
  intros H. run_to_benchmark H.
  rewrite writeFixture_run. destruct (os_OpenFile w _); repeat split; reflexivity.
Qed.

Lemma mainnet_run w flags conf cp su fu hu :
  FixturesGenerated w flags Mainnet conf cp su fu hu →
  rendered (generateBeaconData_body w flags).1 = [benchmarkData w cp su fu hu]
  ∧ opened (generateBeaconData_body w flags).1 = fixturePaths Mainnet ++ [benchmarkPath]
  ∧ (os_OpenFile w benchmarkPath = None →
     (benchmarkPath,
      String.list_byte_of_string
        (mustache_RenderFile w pathToBenchmarkDataTemplate
           (benchmarkData w cp su fu hu)).1)
       ∈ written (generateBeaconData_body w flags).1).
Proof.
  intros H. unfold benchmarkPath. run_to_benchmark H.
  split; [|split].
  - run_cases; reflexivity.
  - run_cases; reflexivity.
  - intros Ho. rewrite writeFixture_run, writeBenchmarkDataFile_run, Ho.
    run_cases; cbn [prepend fst snd app written omap]; set_solver.
Qed.

Lemma benchmark_only_for_mainnet w flags :
  (rendered (generateBeaconData_body w flags).1 ≠ []
   ∨ benchmarkPath ∈ opened (generateBeaconData_body w flags).1) →
  ∃ spec, GetString flags "spec" = (spec, None) ∧ ToSpec spec = Ok Mainnet.
Proof.
  unfold generateBeaconData_body.
  change ("initial-checkpoint." +:+ Spec_ToString ?a +:+ ".json")
    with (fixtureFile "initial-checkpoint" a);
  change ("sync-committee-update." +:+ Spec_ToString ?a +:+ ".json")
    with (fixtureFile "sync-committee-update" a);
  change ("finalized-header-update." +:+ Spec_ToString ?a +:+ ".json")
    with (fixtureFile "finalized-header-update" a);
  change ("execution-header-update." +:+ Spec_ToString ?a +:+ ".json")
    with (fixtureFile "execution-header-update" a).
  destruct (GetString flags "spec") as [spec [e|]]; run_step.
  { intros [H|H]; [done|]. by apply elem_of_nil in H. }
  destruct (ToSpec spec) as [[]|e] eqn:Hsp; run_step.
  - intros _. by exists spec.
  - destruct (viper_ReadInConfig w configFile); run_step.
    { intros [H|H]; [done|]. by apply elem_of_nil in H. }
    destruct (viper_Unmarshal w); run_step.
    2:{ intros [H|H]; [done|]. by apply elem_of_nil in H. }
    destruct (GetCheckpoint w _); run_step.
    2:{ intros [H|H]; [done|]. by apply elem_of_nil in H. }
    run_cases.
    all: intros [H|H]; [exfalso; apply H; reflexivity|].
    all: apply list_elem_of_In in H; vm_compute in H; intuition discriminate.
  - intros [H|H]; [done|]. by apply elem_of_nil in H. 
Qed.

(** C8: the canonicalisation and rendering stage runs exactly for mainnet.
    A run that renders the template or opens the benchmark file was given
    the mainnet spec; after the four fixtures, a mainnet run renders once
    and opens [fixtures.rs] under the benchmark directory as its only other
    file, and a minimal run renders nothing, opens only the four fixtures
    and ends there. *)
Theorem benchmark_stage_iff_mainnet w flags :
  ((rendered (generateBeaconData_body w flags).1 ≠ []
    ∨ benchmarkPath ∈ opened (generateBeaconData_body w flags).1) →
   ∃ spec, GetString flags "spec" = (spec, None) ∧ ToSpec spec = Ok Mainnet)
  ∧ (∀ conf cp su fu hu,
       FixturesGenerated w flags Mainnet conf cp su fu hu →
       rendered (generateBeaconData_body w flags).1 = [benchmarkData w cp su fu hu]
       ∧ opened (generateBeaconData_body w flags).1
         = fixturePaths Mainnet
             ++ ["parachain/pallets/ethereum-beacon-client/src/benchmarking/fixtures.rs"]
       ∧ (os_OpenFile w benchmarkPath = None →
          (benchmarkPath,
           String.list_byte_of_string
             (mustache_RenderFile w pathToBenchmarkDataTemplate
                (benchmarkData w cp su fu hu)).1)
            ∈ written (generateBeaconData_body w flags).1))
  ∧ (∀ conf cp su fu hu,
       FixturesGenerated w flags Minimal conf cp su fu hu →
       (generateBeaconData_body w flags).2 = Ok tt
       ∧ rendered (generateBeaconData_body w flags).1 = []
       ∧ opened (generateBeaconData_body w flags).1 = fixturePaths Minimal).
Proof.
  split; [apply benchmark_only_for_mainnet|].
  split; intros conf cp su fu hu H.
  - apply (mainnet_run _ _ _ _ _ _ _ H).
  - apply (minimal_run _ _ _ _ _ _ _ H).
Qed.

(** ** Tested errors end the run *)

Section FailFast.
Context {A B : Type} (w : World).

Lemma failFast_sound (t : list Event) (r : result A) :
  failFast w t r = true → FailFast w (t, r).
Proof.
  intros Hb t1 ev t2 Ht Hev. simpl in Ht. subst t.
  induction t1 as [|ev1 t1 IH]; simpl in Hb.
  - rewrite Hev in Hb. apply andb_true_iff in Hb as [[Hc Hr]%andb_true_iff _].
    split; [done|]. destruct r; [done|by eexists].
  - apply andb_true_iff in Hb as [_ Hb]. by apply IH.
Qed.

Lemma failfast_nil (r : result A) : FailFast w ([], r).
Proof. intros t1 ev t2 Ht. by destruct t1. Qed.

Lemma failfast_wrapf format (m : Run A) : FailFast w m → FailFast w (wrapf format m).
Proof.
  intros Hm t1 ev t2 Ht Hev. destruct (Hm t1 ev t2 Ht Hev) as [Hc [e He]].
  split; [done|]. unfold wrapf. simpl. rewrite He. by eexists.
Qed.

Lemma failfast_attempt (m : Run A) :
  Forall (λ ev, onInitialCheckpoint ev = true) m.1 → FailFast w (attempt m).
Proof.
  intros Hm t1 ev t2 Ht Hev. simpl in Ht. rewrite Ht in Hm.
  apply Forall_app in Hm as [_ Hm]. apply Forall_cons in Hm as [Hi _].
  unfold checkedFailure in Hev. by rewrite Hi, andb_false_r in Hev.
Qed.

Lemma failfast_bind (m : Run A) (k : A → Run B) :
  FailFast w m → (∀ a, FailFast w (k a)) → FailFast w (bind m k).
Proof.
  intros Hm Hk. destruct m as [t [a|e]]; intros t1 ev t2 Ht Hev; simpl in Ht.
  2:{ destruct (Hm t1 ev t2 Ht Hev) as [Hc _]. split; [done|by eexists]. }
  apply app_eq_inv in Ht as [(t' & -> & Ht)|(t' & -> & Ht)].
  - destruct t' as [|ev' t']; simpl in Ht.
    + rewrite app_nil_r. exact (Hk a [] ev t2 (eq_sym Ht) Hev).
    + simplify_eq.
      by destruct (Hm t1 _ t' eq_refl Hev) as [_ [e He]].
  - exact (Hk a t' ev t2 Ht Hev).
Qed.

End FailFast.

Section FailFastSteps.
Context (w : World).

Lemma failfast_check {A} (p : A * option error) : FailFast w (check p).
Proof. destruct p as [a [e|]]; apply failfast_nil. Qed.

Lemma failfast_ofResult {A} (r : result A) : FailFast w (ofResult r).
Proof. apply failfast_nil. Qed.

Lemma failfast_guard (b : bool) (e : error) :
  FailFast w (if b then fail e else ret tt).
Proof. destruct b; apply failfast_nil. Qed.

Lemma failfast_emit (ev : Event) : answeredError w ev = false → FailFast w (emit ev).
Proof.
  intros Hev. apply failFast_sound. cbn. unfold checkedFailure.
  by rewrite Hev.
Qed.

Lemma failfast_call {A} (ev : Event) (r : result A) :
  (answeredError w ev = true → ∃ e, r = Err e) → FailFast w (call ev r).
Proof.
  intros Hr t1 ev' t2 Ht Hev. destruct t1 as [|? [|]]; simplify_eq/=.
  split; [done|]. apply Hr. by apply andb_true_iff in Hev as [? _].
Qed.

Lemma failfast_callE (ev : Event) (o : option error) :
  (answeredError w ev = true → is_Some o) → FailFast w (callE ev o).
Proof.
  intros Ho t1 ev' t2 Ht Hev. destruct t1 as [|? [|]]; simplify_eq/=.
  split; [done|]. apply andb_true_iff in Hev as [Hev _].
  destruct (Ho Hev) as [e ->]. by eexists.
Qed.

(** The fixture writer, on any fixture but the initial checkpoint. *)
Lemma failfast_writeFixture data stem sp :
  onInitialCheckpoint (EvOpenFile (fixturePath stem sp)) = false →
  FailFast w (writeJSONToFile w data (fixtureFile stem sp)).
Proof.
  intros Hstem. rewrite writeFixture_run.
  assert (∀ c, onInitialCheckpoint (EvWrite (fixturePath stem sp) c) = false) as Hwr
    by (intros c; exact Hstem).
  destruct (os_OpenFile w (fixturePath stem sp)) eqn:Ho;
    [|destruct (File_Write w (fixturePath stem sp) _) eqn:Hw];
    apply failFast_sound; unfold failFast, checkedFailure, answeredError;
    rewrite ?Hstem, ?Hwr, ?Ho, ?Hw; reflexivity.
Qed.

Lemma failfast_writeBenchmarkDataFile filename fileContents :
  onInitialCheckpoint (EvOpenFile (pathToBeaconBenchmarkData +:+ "/" +:+ filename)) = false →
  FailFast w (writeBenchmarkDataFile w filename fileContents).
Proof.
  intros Hname. rewrite writeBenchmarkDataFile_run. cbv zeta.
  assert (∀ c, onInitialCheckpoint
                 (EvWrite (pathToBeaconBenchmarkData +:+ "/" +:+ filename) c) = false)
    as Hwr by (intros c; exact Hname).
  destruct (os_OpenFile w _) eqn:Ho; [|destruct (File_Write w _ _) eqn:Hw];
    apply failFast_sound; unfold failFast, checkedFailure, answeredError;
    rewrite ?Hname, ?Hwr, ?Ho, ?Hw; reflexivity.
Qed.

Lemma initial_checkpoint_calls data sp :
  Forall (λ ev, onInitialCheckpoint ev = true)
    (writeJSONToFile w data (fixtureFile "initial-checkpoint" sp)).1.
Proof.
  rewrite writeFixture_run.
  destruct (os_OpenFile w _); destruct sp; repeat constructor.
Qed.

End FailFastSteps.

Ltac failfast_step :=
  first
    [ apply failfast_wrapf; failfast_step
    | apply failfast_check
    | apply failfast_ofResult
    | apply failfast_guard
    | apply failfast_emit; reflexivity
    | apply failfast_attempt, initial_checkpoint_calls
    | apply failfast_writeFixture; reflexivity
    | apply failfast_writeBenchmarkDataFile; reflexivity
    | apply failfast_callE; cbn [answeredError];
      let H := fresh in intros H; apply bool_decide_eq_true in H; exact H
    | apply failfast_call; cbn [answeredError];
      match goal with
      | |- context [match ?r with _ => _ end] => destruct r; [done|by eexists]
      end ].

Ltac failfast_bind_step :=
  lazymatch goal with
  | |- FailFast _ (bind _ _) => apply failfast_bind
  end.

Lemma generateBeaconData_failfast w flags :
  FailFast w (generateBeaconData_body w flags).
Proof.
  unfold generateBeaconData_body.
  change ("initial-checkpoint." +:+ Spec_ToString ?a +:+ ".json")
    with (fixtureFile "initial-checkpoint" a);
  change ("sync-committee-update." +:+ Spec_ToString ?a +:+ ".json")
    with (fixtureFile "sync-committee-update" a);
  change ("finalized-header-update." +:+ Spec_ToString ?a +:+ ".json")
    with (fixtureFile "finalized-header-update" a);
  change ("execution-header-update." +:+ Spec_ToString ?a +:+ ".json")
    with (fixtureFile "execution-header-update" a).
  apply failfast_bind; [failfast_step|intros spec].
  apply failfast_bind; [failfast_step|intros sp].
  cbv zeta.
  repeat (failfast_bind_step; [destruct sp; failfast_step|intros ?]).
  failfast_bind_step; [|intros ?; failfast_step].
  destruct sp; cbn [Spec_IsMainnet]; [|apply failfast_nil].
  repeat (failfast_bind_step; [failfast_step|intros ?]). failfast_step.
Qed.

(** A serialization error does not reach the caller of [writeJSONToFile]. *)
Lemma marshal_error_discarded w data filename :
  Writable w data (pathToBeaconTestFixtureFiles +:+ "/" +:+ filename) →
  (writeJSONToFile w data filename).2 = Ok tt.
Proof. intros H. by rewrite (writeJSONToFile_ok _ _ _ H). Qed.

(** The errors that are tested do end the run: a failure to create or
    write the sync-committee-update, finalized-header-update or
    execution-header-update fixture or the benchmark file, like a failed
    configuration read or fetch, is followed by nothing but the deferred
    close of the file, and the run returns an error.  A serialization error
    does not reach the caller of the fixture writer. *)
Lemma tested_errors_end_the_run w flags :
  (∀ t1 ev t2,
     (generateBeaconData_body w flags).1 = t1 ++ ev :: t2 →
     answeredError w ev = true →
     onInitialCheckpoint ev = false →
     forallb isClose t2 = true
     ∧ ∃ e, (generateBeaconData_body w flags).2 = Err e)
  ∧ (∀ data filename e,
       (json_MarshalIndent w data).2 = Some e →
       Writable w data (pathToBeaconTestFixtureFiles +:+ "/" +:+ filename) →
       (writeJSONToFile w data filename).2 = Ok tt).
Proof.
  split.
  - intros t1 ev t2 Ht Hev Hinit.
    apply (generateBeaconData_failfast w flags t1 ev t2 Ht).
    unfold checkedFailure. by rewrite Hev, Hinit.
  - intros data filename e _. apply marshal_error_discarded.
Qed.


(** ** Canonicalisation *)

Lemma substring_all (s : string) : String.substring 0 (String.length s) s = s.
Proof. induction s as [|c s IH]; simpl; [done|]. by rewrite IH. Qed.

Lemma prefix_empty (s : string) : String.prefix String.EmptyString s = true.
Proof. by destruct s. Qed.

(** What the pass does to a string, by its first two characters. *)
Lemma removeLeadingZeroHash_prefixed (r : string) :
  removeLeadingZeroHash (String "0" (String "x" r)) = r.
Proof.
  unfold removeLeadingZeroHash.
  change (String.prefix "0x" (String "0" (String "x" r))) with (String.prefix String.EmptyString r).
  rewrite prefix_empty.
  change (String.substring 2 (String.length (String "0" (String "x" r)) - 2)
            (String "0" (String "x" r)))
    with (String.substring 0 (String.length r - 0) r).
  rewrite Nat.sub_0_r. apply substring_all.
Qed.

Lemma prefix_0x_inv (s : string) :
  String.prefix "0x" s = true → ∃ r, s = String "0" (String "x" r).
Proof.
  destruct s as [|a [|b r]]; cbn [String.prefix]; try done.
  - by destruct (ascii_dec "0" a).
  - destruct (ascii_dec "0" a) as [<-|]; [|done].
    destruct (ascii_dec "x" b) as [<-|]; [|done]. by exists r.
Qed.

Lemma removeLeadingZeroHash_unprefixed (s : string) :
  String.prefix "0x" s = false → removeLeadingZeroHash s = s.
Proof. unfold removeLeadingZeroHash. by intros ->. Qed.

Lemma allHex_unprefixed (s : string) :
  allHex s = true → String.prefix "0x" s = false.
Proof.
  destruct (String.prefix "0x" s) eqn:Hp; [|done].
  apply prefix_0x_inv in Hp as [r ->].
  change (allHex (String "0" (String "x" r))) with false. done.
Qed.

(** The pass is idempotent on a string exactly when the string does not
    start with the prefix twice. *)
Lemma removeLeadingZeroHash_idempotent_iff (s : string) :
  removeLeadingZeroHash (removeLeadingZeroHash s) = removeLeadingZeroHash s
  ↔ String.prefix "0x0x" s = false.
Proof.
  destruct (String.prefix "0x" s) eqn:Hp.
  - apply prefix_0x_inv in Hp as [r ->].
    rewrite removeLeadingZeroHash_prefixed.
    change (String.prefix "0x0x" (String "0" (String "x" r)))
      with (String.prefix "0x" r).
    split.
    + intros Heq. destruct (String.prefix "0x" r) eqn:Hr; [|done].
      apply prefix_0x_inv in Hr as [r' ->].
      rewrite removeLeadingZeroHash_prefixed in Heq.
      apply (f_equal String.length) in Heq. cbn [String.length] in Heq. lia.
    + apply removeLeadingZeroHash_unprefixed.
  - rewrite !(removeLeadingZeroHash_unprefixed s Hp). split; [|done].
    intros _. destruct s as [|a [|b r]]; [reflexivity| |]; cbn [String.prefix] in *.
    + destruct (ascii_dec "0" a); reflexivity.
    + destruct (ascii_dec "0" a); [|reflexivity].
      destruct (ascii_dec "x" b); [|reflexivity]. by rewrite prefix_empty in Hp.
Qed.

Lemma removeLeadingZeroHash_hash (s : string) :
  isHash s = true →
  allHex (removeLeadingZeroHash s) = true
  ∧ removeLeadingZeroHash (removeLeadingZeroHash s) = removeLeadingZeroHash s.
Proof.
  unfold isHash. intros [Hh|[Hp Hh]%andb_true_iff]%orb_true_iff.
  - rewrite (removeLeadingZeroHash_unprefixed s (allHex_unprefixed s Hh)).
    split; [done|]. apply removeLeadingZeroHash_unprefixed, allHex_unprefixed, Hh.
  - apply prefix_0x_inv in Hp as [r ->].
    change (String.substring 2 (String.length (String "0" (String "x" r)) - 2)
              (String "0" (String "x" r)))
      with (String.substring 0 (String.length r - 0) r) in Hh.
    rewrite Nat.sub_0_r, substring_all in Hh.
    rewrite removeLeadingZeroHash_prefixed. split; [done|].
    apply removeLeadingZeroHash_unprefixed, allHex_unprefixed, Hh.
Qed.

Lemma removeLeadingZeroHash_idempotent_list (l : list string) :
  Forall (λ s, isHash s = true) l →
  removeLeadingZeroHash <$> (removeLeadingZeroHash <$> l) = removeLeadingZeroHash <$> l.
Proof.
  induction 1 as [|s l Hs _ IH]; [done|].
  cbn [fmap list_fmap]. f_equal; [|exact IH].
  by apply removeLeadingZeroHash_hash.
Qed.

Ltac unfold_passes :=
  unfold Artifact_RemoveLeadingZeroHashes, CheckPoint_RemoveLeadingZeroHashes,
    Update_RemoveLeadingZeroHashes, HeaderUpdate_RemoveLeadingZeroHashes,
    BeaconHeader_RemoveLeadingZeroHashes;
  cbn [hashFields Header AttestedHeader HeaderRoots CheckPointHashes UpdateHashes
       HeaderUpdateHashes Slot SignatureSlot].

Lemma canonicalize_idempotent (x : Artifact) :
  Forall (λ s, isHash s = true) (hashFields x) →
  Artifact_RemoveLeadingZeroHashes (Artifact_RemoveLeadingZeroHashes x)
  = Artifact_RemoveLeadingZeroHashes x.
Proof.
  destruct x as [[[slot roots] hashes]|[[slot roots] sig hashes]|[hashes]];
    unfold_passes; rewrite ?Forall_app; intros H;
    rewrite !removeLeadingZeroHash_idempotent_list by tauto; reflexivity.
Qed.

Lemma removeLeadingZeroHash_stripped_list (l : list string) :
  Forall (λ s, allHex s = true) l → removeLeadingZeroHash <$> l = l.
Proof.
  induction 1 as [|s l Hs _ IH]; [done|]. cbn [fmap list_fmap]. f_equal; [|exact IH].
  apply removeLeadingZeroHash_unprefixed, allHex_unprefixed, Hs.
Qed.

Lemma canonicalize_stripped (x : Artifact) :
  Forall (λ s, allHex s = true) (hashFields x) →
  Artifact_RemoveLeadingZeroHashes x = x.
Proof.
  destruct x as [[[slot roots] hashes]|[[slot roots] sig hashes]|[hashes]];
    unfold_passes; rewrite ?Forall_app; intros H;
    rewrite !removeLeadingZeroHash_stripped_list by tauto; reflexivity.
Qed.

(** The digits [hex.EncodeToString] writes. *)
Lemma hex_EncodeToString_digits (src : bytes) :
  allHex (hex_EncodeToString src) = true
  ∧ String.length (hex_EncodeToString src) = (2 * length src)%nat.
Proof.
  induction src as [|v src [IHh IHl]]; [done|].
  cbn [hex_EncodeToString allHex String.length length]. split.
  - rewrite IHh. by destruct v.
  - rewrite IHl. lia.
Qed.

(** ** Fixture contents and the order of stripping *)

Lemma fixtures_written_before_stripping w flags conf cp su fu hu :
  FixturesGenerated w flags Mainnet conf cp su fu hu →
  Writable w (ArtCheckPoint (CheckPoint_ToJSON w cp))
    (fixturePath "initial-checkpoint" Mainnet) →
  os_OpenFile w benchmarkPath = None →
  written (beforeRender (generateBeaconData_body w flags).1)
    = rawFixtures w Mainnet cp su fu hu
  ∧ rendered (generateBeaconData_body w flags).1 = [benchmarkData w cp su fu hu]
  ∧ written (afterRender (generateBeaconData_body w flags).1)
    = [(benchmarkPath,
        String.list_byte_of_string
          (mustache_RenderFile w pathToBenchmarkDataTemplate
             (benchmarkData w cp su fu hu)).1)].
Proof.
  intros H Hcpw Ho. unfold benchmarkPath in *. run_to_benchmark H.
  rewrite (writeFixture_ok _ _ _ _ Hcpw), writeBenchmarkDataFile_run, Ho.
  run_cases; repeat split; reflexivity.
Qed.

(** C7: the prefix-stripping pass is idempotent on artifacts: where every
    hash-valued field is a hex string, bare or with the [0x] prefix, the
    pass applied twice gives what it gives applied once, and an artifact
    whose hash fields are already bare is left unchanged; the four JSON
    fixtures are written, with the artifacts as fetched, before the template
    is rendered with the stripped ones. *)
Theorem canonicalize_idempotent_on_hashes :
  (∀ x, Forall (λ s, isHash s = true) (hashFields x) →
        Artifact_RemoveLeadingZeroHashes (Artifact_RemoveLeadingZeroHashes x)
        = Artifact_RemoveLeadingZeroHashes x)
  ∧ (∀ x, Forall (λ s, allHex s = true) (hashFields x) →
          Artifact_RemoveLeadingZeroHashes x = x)
  ∧ (∀ w flags conf cp su fu hu,
       FixturesGenerated w flags Mainnet conf cp su fu hu →
       Writable w (ArtCheckPoint (CheckPoint_ToJSON w cp))
         (fixturePath "initial-checkpoint" Mainnet) →
       os_OpenFile w benchmarkPath = None →
       written (beforeRender (generateBeaconData_body w flags).1)
         = rawFixtures w Mainnet cp su fu hu
       ∧ rendered (generateBeaconData_body w flags).1 = [benchmarkData w cp su fu hu]
       ∧ written (afterRender (generateBeaconData_body w flags).1)
         = [(benchmarkPath,
             String.list_byte_of_string
               (mustache_RenderFile w pathToBenchmarkDataTemplate
                  (benchmarkData w cp su fu hu)).1)]).
Proof.
  split; [exact canonicalize_idempotent|].
  split; [exact canonicalize_stripped|].
  exact fixtures_written_before_stripping.
Qed.

(** Outside hex strings the pass need not be idempotent: a string that
    starts with the prefix twice is stripped again. *)
Lemma canonicalize_not_idempotent :
  Artifact_RemoveLeadingZeroHashes
    (Artifact_RemoveLeadingZeroHashes
       (ArtHeaderUpdate {| HeaderUpdateHashes := ["0x0xab"] |}))
  ≠ Artifact_RemoveLeadingZeroHashes
      (ArtHeaderUpdate {| HeaderUpdateHashes := ["0x0xab"] |}).
Proof. vm_compute. discriminate. Qed.

(** ** generate-beacon-checkpoint *)

Lemma FlagSet_Set_undefined f name value f' other :
  f !! other = None → FlagSet_Set f name value = Some f' → f' !! other = None.
Proof.
  unfold FlagSet_Set. intros Hnone.
  destruct (f !! name) as [[old|old]|] eqn:Hname; [| |done].
  - intros [= <-]. rewrite lookup_insert_ne; [done|]. by intros ->; simplify_eq.
  - destruct (ParseBool value); [|done].
    intros [= <-]. rewrite lookup_insert_ne; [done|]. by intros ->; simplify_eq.
Qed.

(** Command-line values only change flags that are declared. *)
Lemma ParseFlags_undefined args f f' other :
  f !! other = None → ParseFlags f args = Some f' → f' !! other = None.
Proof.
  revert f. induction args as [|[name value] args IH]; intros f Hnone; simpl.
  - by intros [= <-].
  - destruct (FlagSet_Set f name value) as [f1|] eqn:Hset; [|done].
    apply IH. by eapply FlagSet_Set_undefined.
Qed.

Lemma export_json_not_declared :
  generateBeaconCheckpointCmd !! "export_json" = None
  ∧ generateBeaconCheckpointCmd !! "export-json" = Some (BoolFlag true).
Proof. split; reflexivity. Qed.

(** The name the command reads is not the name it declares: whatever the
    operator passes, [GetBool] answers [false] and an error. *)
Lemma export_json_undefined args flags :
  ParseFlags generateBeaconCheckpointCmd args = Some flags →
  GetBool flags "export_json"
  = (false, Some (Errorf_s "flag accessed but not defined: %s" "export_json")).
Proof.
  intros Hparse. unfold GetBool, getFlagType.
  by rewrite (ParseFlags_undefined args _ _ "export_json"
                (proj1 export_json_not_declared) Hparse).
Qed.

Ltac checkpoint_to_fetch Hconf Hcp :=
  let spec := fresh "spec" in
  let Hs := fresh "Hs" in
  let Hsp := fresh "Hsp" in
  let Hr := fresh "Hr" in
  let Hu := fresh "Hu" in
  destruct Hconf as ((spec & Hs & Hsp) & Hr & Hu);
  unfold generateBeaconCheckpoint, generateBeaconCheckpoint_body;
  rewrite Hs; run_step; rewrite Hsp; run_step; rewrite Hr, Hu; run_step;
  match type of Hcp with
  | GetCheckpoint _ ?s = _ => change (syncer_New _ _ _ _ _) with s
  end;
  rewrite Hcp; run_step.

(** With the flags of the command, no file is opened: the JSON export is
    never taken. *)
Lemma checkpoint_opens_nothing w args flags :
  ParseFlags generateBeaconCheckpointCmd args = Some flags →
  opened (generateBeaconCheckpoint w flags).1 = [].
Proof.
  intros Hparse. unfold generateBeaconCheckpoint, generateBeaconCheckpoint_body.
  rewrite (export_json_undefined _ _ Hparse).
  destruct (GetString flags "spec") as [spec [e|]]; run_step; [reflexivity|].
  destruct (ToSpec spec); run_step; [|reflexivity].
  destruct (viper_ReadInConfig w configFile); run_step; [reflexivity|].
  destruct (viper_Unmarshal w); run_step; [|reflexivity].
  destruct (GetCheckpoint w _); run_step; reflexivity.
Qed.

(** C4: for every checkpoint that is fetched and encoded, the line printed
    is the call index [0x3200] followed by the lowercase hex digits, two per
    byte, of the encoded payload. *)
Theorem checkpoint_call_printed w args flags sp conf cp payload :
  ParseFlags generateBeaconCheckpointCmd args = Some flags →
  Configured w flags sp conf →
  GetCheckpoint w (syncerOf flags conf sp) = Ok cp →
  types_EncodeToBytes w cp = (payload, None) →
  printed (generateBeaconCheckpoint w flags).1
    = ["0x3200" +:+ hex_EncodeToString payload]
  ∧ allHex (hex_EncodeToString payload) = true
  ∧ String.length (hex_EncodeToString payload) = (2 * length payload)%nat.
Proof.
  intros Hparse Hconf Hcp Henc. split; [|apply hex_EncodeToString_digits].
  checkpoint_to_fetch Hconf Hcp.
  rewrite (export_json_undefined _ _ Hparse), Henc. reflexivity.
Qed.

(** The errors the function literal discards itself are no outcome of the
    run: whatever [EncodeToBytes] reports, the checkpoint command logs
    nothing and prints the line. *)
Lemma encoding_error_discarded w args flags sp conf cp :
  ParseFlags generateBeaconCheckpointCmd args = Some flags →
  Configured w flags sp conf →
  GetCheckpoint w (syncerOf flags conf sp) = Ok cp →
  generateBeaconCheckpoint w flags
  = ([EvReadInConfig configFile; EvGetCheckpoint (syncerOf flags conf sp);
      EvPrintln ("0x3200" +:+ hex_EncodeToString (types_EncodeToBytes w cp).1)],
     None).
Proof.
  intros Hparse Hconf Hcp. checkpoint_to_fetch Hconf Hcp.
  rewrite (export_json_undefined _ _ Hparse). reflexivity.
Qed.

Lemma encoding_error_is_not_logged :
  let w := Stub.world Stub.encodeFailure in
  (types_EncodeToBytes w Stub.checkpoint).2
  = Some (errors_New "scale: unsupported value")
  ∧ generateBeaconCheckpoint w (Stub.checkpointFlags "mainnet")
    = ([EvReadInConfig configFile; EvGetCheckpoint Stub.mainnetSyncer;
        EvPrintln "0x3200"], None).
Proof. cbv zeta. split; vm_compute; reflexivity. Qed.

(** ** Dropped errors *)

(** C6: the code at the failing inputs.  The initial-checkpoint fixture
    cannot be created, or the template cannot be rendered:
    [writeJSONToFile] and [mustache.RenderFile] report the error, it is
    assigned and never tested, and the run goes on through every later stage
    and ends without error.  The same holds when [json.MarshalIndent]
    fails, whose error [writeJSONToFile] discards. *)
Theorem dropped_errors_do_not_stop_the_run :
  let w1 := Stub.world Stub.unwritableCheckpoint in
  let run1 := generateBeaconData_body w1 (Stub.flags "mainnet") in
  let w2 := Stub.world Stub.renderFailure in
  let run2 := generateBeaconData_body w2 (Stub.flags "mainnet") in
  let w3 := Stub.world Stub.marshalFailure in
  let run3 := generateBeaconData_body w3 (Stub.flags "mainnet") in
  ((writeJSONToFile w1 (ArtCheckPoint (CheckPoint_ToJSON w1 Stub.checkpoint))
      (fixtureFile "initial-checkpoint" Mainnet)).2
   = Err (Errorf_w "create file: %w" (errors_New "open: permission denied"))
   ∧ run1.2 = Ok tt
   ∧ syncCommitteeFetches run1.1 = [0]
   ∧ opened run1.1 = fixturePaths Mainnet ++ [benchmarkPath]
   ∧ fst <$> written run1.1
     = [fixturePath "sync-committee-update" Mainnet;
        fixturePath "finalized-header-update" Mainnet;
        fixturePath "execution-header-update" Mainnet; benchmarkPath])
  ∧ ((mustache_RenderFile w2 pathToBenchmarkDataTemplate
        (benchmarkData w2 Stub.checkpoint (Stub.update Stub.renderFailure)
           (Stub.update Stub.renderFailure) Stub.headerUpdate)).2
     = Some (errors_New "mustache: template not found")
     ∧ run2.2 = Ok tt
     ∧ (benchmarkPath, []) ∈ written run2.1
     ∧ last run2.1 = Some (EvLogInfo "done"))
  ∧ ((json_MarshalIndent w3
        (ArtUpdate (Update_ToJSON w3 (Payload (Stub.update Stub.marshalFailure))))).2
     = Some (errors_New "json: unsupported value")
     ∧ run3.2 = Ok tt
     ∧ (fixturePath "sync-committee-update" Mainnet, []) ∈ written run3.1
     ∧ last run3.1 = Some (EvLogInfo "done")).
Proof.
  cbv zeta. split; [repeat split; vm_compute; reflexivity|]. split.
  - split; [vm_compute; reflexivity|]. split; [vm_compute; reflexivity|].
    split; [|vm_compute; reflexivity].
    apply list_elem_of_In. vm_compute. tauto.
  - split; [vm_compute; reflexivity|]. split; [vm_compute; reflexivity|].
    split; [|vm_compute; reflexivity].
    apply list_elem_of_In. vm_compute. tauto.
Qed.

(** C9: the code at the failing input.  The operator passes only the spec,
    so [export-json] keeps its default [true]; the command reads
    [export_json], which is not declared, gets [false], and writes no file. *)
Theorem export_json_default_writes_no_file :
  let flags := Stub.checkpointFlags "mainnet" in
  let run := generateBeaconCheckpoint (Stub.world Stub.scenario) flags in
  ParseFlags generateBeaconCheckpointCmd [("spec", "mainnet")] = Some flags
  ∧ flags !! "export-json" = Some (BoolFlag true)
  ∧ GetBool flags "export_json"
    = (false, Some (Errorf_s "flag accessed but not defined: %s" "export_json"))
  ∧ opened run.1 = []
  ∧ written run.1 = []
  ∧ printed run.1 = ["0x320001abff"]
  ∧ run.2 = None.
Proof. cbv zeta. repeat split; vm_compute; reflexivity. Qed.

(** A run that does not reach the checks: the finalized update is fetched,
    its attested slot is not above the checkpoint slot, and its fixture
    cannot be created; the run ends with the write error. *)
Lemma finalized_write_error_precedes_checks :
  let w := Stub.world Stub.stale in
  let run := generateBeaconData_body w (Stub.flags "mainnet") in
  EvGetFinalizedUpdate Stub.mainnetSyncer ∈ run.1
  ∧ GetFinalizedUpdate w Stub.mainnetSyncer = Ok (Stub.update Stub.stale)
  ∧ attestedSlotOf w (Stub.update Stub.stale) ≤ initialSyncHeaderSlot w Stub.checkpoint
  ∧ run.2 = Err (Errorf_w "write finalized header update to file: %w"
                   (Errorf_w "create file: %w" (errors_New "open: permission denied")))
  ∧ (∀ format a b, run.2 ≠ Err (Errorf_dd format a b))
  ∧ headerFetches run.1 = [].
Proof.
  cbv zeta. split; [apply list_elem_of_In; vm_compute; tauto|].
  split; [reflexivity|]. split; [vm_compute; discriminate|].
  split; [vm_compute; reflexivity|]. split; [|vm_compute; reflexivity].
  intros format a b. vm_compute. discriminate.
Qed.

(** ** The theorems at the stub world *)

Lemma stub_configured sc :
  Configured (Stub.world sc) (Stub.flags "mainnet") Mainnet Stub.config.
Proof. split; [exists "mainnet"; split; reflexivity|split; reflexivity]. Qed.

Lemma stub_configured_minimal sc :
  Configured (Stub.world sc) (Stub.flags "minimal") Minimal Stub.config.
Proof. split; [exists "minimal"; split; reflexivity|split; reflexivity]. Qed.

Lemma stub_configured_checkpoint sc :
  Configured (Stub.world sc) (Stub.checkpointFlags "mainnet") Mainnet Stub.config.
Proof. split; [exists "mainnet"; split; reflexivity|split; reflexivity]. Qed.

Lemma stub_writable sc data path :
  path ∉ Stub.unwritable sc → Writable (Stub.world sc) data path.
Proof.
  intros Hp. split; [|reflexivity]. cbn. unfold Stub.failure.
  by rewrite bool_decide_eq_false_2.
Qed.

Lemma period_drift_gate_witness :
  (generateBeaconData_body (Stub.world Stub.drift) (Stub.flags "mainnet")).2
  = Err (Errorf_dd "initialSyncPeriod %d should be consistent with syncCommitteePeriod %d"
           0 1)
  ∧ EvGetSyncCommitteePeriodUpdate Stub.mainnetSyncer 0
    ∈ (generateBeaconData_body (Stub.world Stub.scenario) (Stub.flags "mainnet")).1.
Proof.
  split.
  - refine (proj1 (proj1 (period_drift_gate (Stub.world Stub.drift)
                            (Stub.flags "mainnet") Mainnet Stub.config
                            (stub_configured _) Stub.checkpoint eq_refl) _)).
    vm_compute. discriminate.
  - refine (proj2 (period_drift_gate (Stub.world Stub.scenario)
                     (Stub.flags "mainnet") Mainnet Stub.config
                     (stub_configured _) Stub.checkpoint eq_refl) _).
    reflexivity.
Defined.

Ltac stub_fact := first [reflexivity | split; vm_compute; reflexivity].

Lemma finalized_update_consistency_witness :
  (generateBeaconData_body (Stub.world Stub.otherPeriod) (Stub.flags "mainnet")).2
  = Err (Errorf_dd "initialSyncPeriod %d should be consistent with finalizedUpdatePeriod %d"
           0 1)
  ∧ (generateBeaconData_body (Stub.world Stub.equalSlot) (Stub.flags "mainnet")).2
    = Err (Errorf_dd "AttestedHeader slot %d should be greater than initialSyncHeaderSlot %d"
             100 100)
  ∧ EvGetNextHeaderUpdate Stub.mainnetSyncer 94 (proofOf (Stub.update Stub.scenario))
    ∈ (generateBeaconData_body (Stub.world Stub.scenario) (Stub.flags "mainnet")).1.
Proof.
  split; [|split].
  - destruct (finalized_update_consistency (Stub.world Stub.otherPeriod)
                (Stub.flags "mainnet") Mainnet Stub.config (stub_configured _)
                Stub.checkpoint eq_refl eq_refl
                (Stub.update Stub.otherPeriod) eq_refl ltac:(stub_fact)
                (Stub.update Stub.otherPeriod) eq_refl ltac:(stub_fact))
      as (Hperiod & _ & _).
    apply Hperiod. vm_compute. discriminate.
  - destruct (finalized_update_consistency (Stub.world Stub.equalSlot)
                (Stub.flags "mainnet") Mainnet Stub.config (stub_configured _)
                Stub.checkpoint eq_refl eq_refl
                (Stub.update Stub.equalSlot) eq_refl ltac:(stub_fact)
                (Stub.update Stub.equalSlot) eq_refl ltac:(stub_fact))
      as (_ & Hslot & _).
    apply Hslot; [reflexivity|]. vm_compute. discriminate.
  - destruct (finalized_update_consistency (Stub.world Stub.scenario)
                (Stub.flags "mainnet") Mainnet Stub.config (stub_configured _)
                Stub.checkpoint eq_refl eq_refl
                (Stub.update Stub.scenario) eq_refl ltac:(stub_fact)
                (Stub.update Stub.scenario) eq_refl ltac:(stub_fact))
      as (_ & _ & Hfetch).
    apply Hfetch; reflexivity.
Defined.

Lemma header_update_target_witness :
  headerFetches
    (generateBeaconData_body (Stub.world Stub.slot1000) (Stub.flags "mainnet")).1
  = [(998, {| Proof_FinalizedBlockRoot := [Byte.xaa; Byte.xbb];
              Proof_BlockRootsTree := [[Byte.x01]; [Byte.x02]];
              Proof_Slot := 1000 |})].
Proof.
  pose proof (header_update_target (Stub.world Stub.slot1000)
                (Stub.flags "mainnet") Mainnet Stub.config (stub_configured _)
                Stub.checkpoint eq_refl eq_refl
                (Stub.update Stub.slot1000) eq_refl ltac:(stub_fact)
                (Stub.update Stub.slot1000) eq_refl ltac:(stub_fact)
                eq_refl eq_refl) as (Hfetch & _ & _ & _ & _ & H1000).
  rewrite Hfetch, (H1000 eq_refl). reflexivity.
Defined.

Lemma header_update_target_wraps_witness :
  headerFetches
    (generateBeaconData_body (Stub.world Stub.lowSlot) (Stub.flags "mainnet")).1
  = [(18446744073709551615, proofOf (Stub.update Stub.lowSlot))].
Proof.
  pose proof (header_update_target_wraps (Stub.world Stub.lowSlot)
                (Stub.flags "mainnet") Mainnet Stub.config (stub_configured _)
                Stub.checkpoint eq_refl eq_refl
                (Stub.update Stub.lowSlot) eq_refl ltac:(stub_fact)
                (Stub.update Stub.lowSlot) eq_refl ltac:(stub_fact)
                eq_refl eq_refl) as Hwrap.
  destruct Hwrap as (_ & _ & _ & Hone).
  - cbn. lia.
  - apply Hone. reflexivity.
Defined.

Lemma checkpoint_call_printed_witness :
  printed (generateBeaconCheckpoint (Stub.world Stub.scenario)
             (Stub.checkpointFlags "mainnet")).1
  = ["0x320001abff"].
Proof.
  apply (checkpoint_call_printed (Stub.world Stub.scenario) [("spec", "mainnet")]
           (Stub.checkpointFlags "mainnet") Mainnet Stub.config Stub.checkpoint
           [Byte.x01; Byte.xab; Byte.xff] eq_refl (stub_configured_checkpoint _)
           eq_refl eq_refl).
Defined.

Lemma tested_errors_end_the_run_witness :
  let w := Stub.world Stub.unwritableSync in
  let run := generateBeaconData_body w (Stub.flags "mainnet") in
  last run.1 = Some (EvOpenFile (fixturePath "sync-committee-update" Mainnet))
  ∧ (∃ e, run.2 = Err e)
  ∧ (writeJSONToFile (Stub.world Stub.marshalFailure)
       (ArtHeaderUpdate (HeaderUpdate_ToJSON (Stub.world Stub.marshalFailure)
                           Stub.headerUpdate))
       (fixtureFile "execution-header-update" Mainnet)).2 = Ok tt.
Proof.
  cbv zeta. split; [vm_compute; reflexivity|].
  pose proof (tested_errors_end_the_run (Stub.world Stub.unwritableSync)
                (Stub.flags "mainnet")) as [Hfinal _].
  pose proof (tested_errors_end_the_run (Stub.world Stub.marshalFailure)
                (Stub.flags "mainnet")) as [_ Hmarshal].
  split.
  - refine (proj2 (Hfinal
                     (removelast
                        (generateBeaconData_body (Stub.world Stub.unwritableSync)
                           (Stub.flags "mainnet")).1)
                     (EvOpenFile (fixturePath "sync-committee-update" Mainnet))
                     [] _ _ _)); vm_compute; reflexivity.
  - apply (Hmarshal _ _ (errors_New "json: unsupported value"));
      [vm_compute; reflexivity|split; vm_compute; reflexivity].
Defined.

Lemma stub_fixtures_generated :
  FixturesGenerated (Stub.world Stub.scenario) (Stub.flags "mainnet") Mainnet
    Stub.config Stub.checkpoint (Stub.update Stub.scenario)
    (Stub.update Stub.scenario) Stub.headerUpdate.
Proof.
  split; [apply stub_configured|]. repeat split; vm_compute; reflexivity.
Qed.

Lemma stub_fixtures_generated_minimal :
  FixturesGenerated (Stub.world Stub.scenario) (Stub.flags "minimal") Minimal
    Stub.config Stub.checkpoint (Stub.update Stub.scenario)
    (Stub.update Stub.scenario) Stub.headerUpdate.
Proof.
  split; [apply stub_configured_minimal|]. repeat split; vm_compute; reflexivity.
Qed.

Lemma canonicalize_idempotent_on_hashes_witness :
  (let x := ArtCheckPoint (CheckPoint_ToJSON (Stub.world Stub.scenario) Stub.checkpoint) in
   hashFields x = ["0x01abff"; "0x01abff"]
   ∧ hashFields (Artifact_RemoveLeadingZeroHashes x) = ["01abff"; "01abff"]
   ∧ Artifact_RemoveLeadingZeroHashes (Artifact_RemoveLeadingZeroHashes x)
     = Artifact_RemoveLeadingZeroHashes x)
  ∧ Artifact_RemoveLeadingZeroHashes
      (ArtHeaderUpdate {| HeaderUpdateHashes := ["77"] |})
    = ArtHeaderUpdate {| HeaderUpdateHashes := ["77"] |}
  ∧ fst <$> written (beforeRender
                       (generateBeaconData_body (Stub.world Stub.scenario)
                          (Stub.flags "mainnet")).1)
    = fixturePaths Mainnet.
Proof.
  pose proof canonicalize_idempotent_on_hashes as (Hidem & Hbare & Hrun).
  split; [|split].
  - cbv zeta. split; [reflexivity|]. split; [reflexivity|].
    apply Hidem. repeat constructor.
  - apply Hbare. repeat constructor.
  - destruct (Hrun (Stub.world Stub.scenario) (Stub.flags "mainnet") Stub.config
                Stub.checkpoint (Stub.update Stub.scenario)
                (Stub.update Stub.scenario) Stub.headerUpdate
                stub_fixtures_generated ltac:(stub_fact) eq_refl) as (Hraw & _).
    rewrite Hraw. reflexivity.
Defined.

Lemma benchmark_stage_iff_mainnet_witness :
  opened (generateBeaconData_body (Stub.world Stub.scenario) (Stub.flags "mainnet")).1
  = fixturePaths Mainnet
      ++ ["parachain/pallets/ethereum-beacon-client/src/benchmarking/fixtures.rs"]
  ∧ opened (generateBeaconData_body (Stub.world Stub.scenario) (Stub.flags "minimal")).1
    = fixturePaths Minimal
  ∧ rendered (generateBeaconData_body (Stub.world Stub.scenario) (Stub.flags "minimal")).1
    = []
  ∧ ∃ spec, GetString (Stub.flags "mainnet") "spec" = (spec, None)
            ∧ ToSpec spec = Ok Mainnet.
Proof.
  pose proof (benchmark_stage_iff_mainnet (Stub.world Stub.scenario)
                (Stub.flags "mainnet")) as (Honly & Hmainnet & _).
  pose proof (benchmark_stage_iff_mainnet (Stub.world Stub.scenario)
                (Stub.flags "minimal")) as (_ & _ & Hminimal).
  destruct (Hmainnet _ _ _ _ _ stub_fixtures_generated) as (_ & Hopened & _).
  destruct (Hminimal _ _ _ _ _ stub_fixtures_generated_minimal) as (_ & Hnone & Hfour).
  split; [exact Hopened|]. split; [exact Hfour|]. split; [exact Hnone|].
  apply Honly. left. vm_compute. discriminate.
Defined.

(** * Further properties of the commands *)

(** ** The flags the commands read *)

Lemma FlagSet_Set_string f name value f' other d :
  f !! other = Some (StringFlag d) →
  FlagSet_Set f name value = Some f' →
  f' !! other = Some (StringFlag (if String.eqb name other then value else d)).
Proof.
  unfold FlagSet_Set. intros Hother.
  destruct (String.eqb_spec name other) as [->|Hne].
  - rewrite Hother. intros [= <-]. by rewrite lookup_insert_eq.
  - destruct (f !! name) as [[old|old]|]; [| |done].
    + intros [= <-]. by rewrite lookup_insert_ne.
    + destruct (ParseBool value); [|done].
      intros [= <-]. by rewrite lookup_insert_ne.
Qed.

(** X1: a string flag reads back what the operator passed.  After any
    accepted argument list, [GetString] on a flag declared as a string gives
    the last value passed for it, or its default when none was, and no
    error: the lookups of [spec] and [url] cannot fail. *)
Theorem string_flags_read_back f args f' name d :
  f !! name = Some (StringFlag d) →
  ParseFlags f args = Some f' →
  GetString f' name = (lastValue name args d, None).
Proof.
  revert f d. induction args as [|[n v] args IH]; intros f d Hname; simpl.
  - intros [= <-]. unfold GetString, getFlagType. by rewrite Hname.
  - destruct (FlagSet_Set f n v) as [f1|] eqn:Hset; [|done].
    apply IH. by eapply FlagSet_Set_string.
Qed.

Lemma GetString_error f name v e :
  GetString f name = (v, Some e) → v = String.EmptyString.
Proof.
  unfold GetString. destruct (getFlagType f name "string") as [[]|]; by intros [= <- <-].
Qed.

(** X14: what a failed flag lookup does.  When the lookup of [spec] fails
    either command ends at once with the wrapped lookup error and calls
    nothing; when the lookup of [url] fails its error is dropped and the
    run goes on to fetch the checkpoint on a syncer whose endpoint is the
    empty string. *)
Theorem flag_lookup_failures w flags :
  (∀ v e, GetString flags "spec" = (v, Some e) →
     generateBeaconData_body w flags = ([], Err (Errorf_w "get active spec: %w" e))
     ∧ generateBeaconCheckpoint_body w flags
       = ([], Err (Errorf_w "get active spec: %w" e)))
  ∧ (∀ sp conf e,
       (GetString flags "url").2 = Some e →
       Configured w flags sp conf →
       syncer_endpoint (syncerOf flags conf sp) = String.EmptyString
       ∧ EvGetCheckpoint (syncerOf flags conf sp) ∈ (generateBeaconData_body w flags).1
       ∧ EvGetCheckpoint (syncerOf flags conf sp)
         ∈ (generateBeaconCheckpoint_body w flags).1).
Proof.
  split.
  - intros v e Hs. unfold generateBeaconData_body, generateBeaconCheckpoint_body.
    rewrite Hs. split; reflexivity.
  - intros sp conf e Hurl ((spec & Hs & Hsp) & Hr & Hu). split; [|split].
    + destruct (GetString flags "url") as [v err] eqn:Hget. simpl in Hurl. subst err.
      cbn. rewrite Hget. exact (GetString_error _ _ _ _ Hget).
    + unfold generateBeaconData_body.
      rewrite Hs; run_step; rewrite Hsp; run_step; rewrite Hr, Hu; run_step.
      change (syncer_New _ _ _ _ _) with (syncerOf flags conf sp).
      destruct (GetCheckpoint w (syncerOf flags conf sp));
        rewrite ?prepend_trace; set_solver.
    + unfold generateBeaconCheckpoint_body.
      rewrite Hs; run_step; rewrite Hsp; run_step; rewrite Hr, Hu; run_step.
      change (syncer_New _ _ _ _ _) with (syncerOf flags conf sp).
      destruct (GetCheckpoint w (syncerOf flags conf sp));
        rewrite ?prepend_trace; set_solver.
Qed.

(** ** The printed call *)

Lemma unhex_byte (v : byte) (rest : string) :
  unhex (String (hexdigit (N.shiftr (Byte.to_N v) 4))
           (String (hexdigit (N.land (Byte.to_N v) 15)) rest))
  = (v ::.) <$> unhex rest.
Proof.
  cbn [unhex].
  assert (fromHexChar (hexdigit (N.shiftr (Byte.to_N v) 4))
          = Some (N.shiftr (Byte.to_N v) 4)) as -> by (by destruct v).
  assert (fromHexChar (hexdigit (N.land (Byte.to_N v) 15))
          = Some (N.land (Byte.to_N v) 15)) as -> by (by destruct v).
  cbn [mbind option_bind].
  assert (Byte.of_N (16 * N.shiftr (Byte.to_N v) 4 + N.land (Byte.to_N v) 15)
          = Some v) as -> by (by destruct v).
  reflexivity.
Qed.

Lemma unhex_EncodeToString (src : bytes) : unhex (hex_EncodeToString src) = Some src.
Proof.
  induction src as [|v src IH]; [done|].
  cbn [hex_EncodeToString]. by rewrite unhex_byte, IH.
Qed.

(** X2: the printed call determines the payload.  Two payloads whose call
    lines, [0x3200] followed by the hex digits, are equal are the same
    bytes. *)
Theorem checkpoint_call_determines_payload (a b : bytes) :
  "0x3200" +:+ hex_EncodeToString a = "0x3200" +:+ hex_EncodeToString b →
  a = b.
Proof.
  intros Heq.
  assert (hex_EncodeToString a = hex_EncodeToString b) as Hhex.
  { unfold String.append in Heq. by simplify_eq. }
  apply (f_equal unhex) in Hhex. rewrite !unhex_EncodeToString in Hhex.
  by simplify_eq.
Qed.

(** ** Every run of the checkpoint command *)

Ltac fold_fixture_names :=
  change ("initial-checkpoint." +:+ Spec_ToString ?a +:+ ".json")
    with (fixtureFile "initial-checkpoint" a);
  change ("sync-committee-update." +:+ Spec_ToString ?a +:+ ".json")
    with (fixtureFile "sync-committee-update" a);
  change ("finalized-header-update." +:+ Spec_ToString ?a +:+ ".json")
    with (fixtureFile "finalized-header-update" a);
  change ("execution-header-update." +:+ Spec_ToString ?a +:+ ".json")
    with (fixtureFile "execution-header-update" a).

Ltac run_norm :=
  cbn [bind wrapf check ofResult call callE emit ret fail attempt defer prepend
       logged app fst snd negb Spec_IsMainnet].

(** The set-up answers, in program order. *)
Ltac setup_next w flags :=
  run_step;
  match goal with
  | |- context [GetString flags "spec"] =>
      destruct (GetString flags "spec") as [?spec [?e|]] eqn:?
  | |- context [ToSpec ?x] => destruct (ToSpec x) as [?sp|?e] eqn:?
  | |- context [viper_ReadInConfig w configFile] =>
      destruct (viper_ReadInConfig w configFile) eqn:?
  | |- context [viper_Unmarshal w] => destruct (viper_Unmarshal w) eqn:?
  | |- context [GetCheckpoint w ?s] => destruct (GetCheckpoint w s) eqn:?
  end.

Ltac checkpoint_next w flags :=
  first
    [ setup_next w flags
    | run_step;
      match goal with
      | |- context [GetBool flags "export_json"] =>
          destruct (GetBool flags "export_json") as [[] ?] eqn:?
      | |- context [writeJSONToFile w ?d "dump-initial-checkpoint.json"] =>
          rewrite (writeJSONToFile_run w d "dump-initial-checkpoint.json"); cbv zeta
      | |- context [os_OpenFile w ?p] => destruct (os_OpenFile w p) eqn:?
      | |- context [File_Write w ?p ?c] => destruct (File_Write w p c) eqn:?
      end ].

(** Every run of the checkpoint command, by the answers it gets. *)
Ltac checkpoint_cases w flags :=
  unfold generateBeaconCheckpoint, generateBeaconCheckpoint_body;
  repeat checkpoint_next w flags; run_norm.

(** Two equations for the same call give the same answer. *)
Ltac same_answers :=
  simplify_eq;
  repeat match goal with
         | H1 : ?x = _, H2 : ?x = _ |- _ => rewrite H1 in H2; simplify_eq
         end.

(** X3: the checkpoint command prints exactly when it succeeds.  Every run
    either prints one line, as its last call, and logs no error, or prints
    nothing and ends by logging the error of the function literal. *)
Theorem checkpoint_prints_iff_succeeds w flags :
  let run := generateBeaconCheckpoint w flags in
  (∃ line, printed run.1 = [line]
           ∧ last run.1 = Some (EvPrintln line)
           ∧ (generateBeaconCheckpoint_body w flags).2 = Ok tt)
  ∨ (printed run.1 = []
     ∧ ∃ e, last run.1 = Some (EvLogError "error generating beacon checkpoint" e)
            ∧ (generateBeaconCheckpoint_body w flags).2 = Err e).
Proof.
  cbv zeta. checkpoint_cases w flags.
  all: first [ right; split; [reflexivity|eexists; split; reflexivity]
             | left; eexists; split; [reflexivity|split; reflexivity] ].
Qed.

(** X4: the export branch of the checkpoint command.  When the lookup of
    [export_json] gives false no file is opened and the call is printed;
    when it gives true the checkpoint JSON is written to
    [dump-initial-checkpoint.json] under the fixture directory before the
    call is printed, and a failure to create or write that file ends the run
    with the wrapped error and nothing printed. *)
Theorem checkpoint_export_branch w flags sp conf cp :
  Configured w flags sp conf →
  GetCheckpoint w (syncerOf flags conf sp) = Ok cp →
  let run := generateBeaconCheckpoint_body w flags in
  let data := ArtCheckPoint (CheckPoint_ToJSON w cp) in
  let line := "0x3200" +:+ hex_EncodeToString (types_EncodeToBytes w cp).1 in
  ((GetBool flags "export_json").1 = false →
     opened run.1 = [] ∧ printed run.1 = [line])
  ∧ ((GetBool flags "export_json").1 = true →
       opened run.1 = [dumpPath]
       ∧ (Writable w data dumpPath →
          run = ([EvReadInConfig configFile; EvGetCheckpoint (syncerOf flags conf sp);
                  EvOpenFile dumpPath; EvWrite dumpPath (json_MarshalIndent w data).1;
                  EvClose dumpPath; EvPrintln line], Ok tt))
       ∧ (∀ e, (writeJSONToFile w data "dump-initial-checkpoint.json").2 = Err e →
               run.2 = Err (Errorf_w "write initial sync to file: %w" e)
               ∧ printed run.1 = [])).
Proof.
  intros Hconf Hcp. cbv zeta.
  destruct Hconf as ((spec & Hs & Hsp) & Hr & Hu).
  unfold generateBeaconCheckpoint_body.
  rewrite Hs; run_step; rewrite Hsp; run_step; rewrite Hr, Hu; run_step.
  change (syncer_New _ _ _ _ _) with (syncerOf flags conf sp).
  rewrite Hcp; run_step.
  rewrite !writeJSONToFile_run. cbv zeta.
  change (pathToBeaconTestFixtureFiles +:+ "/" +:+ "dump-initial-checkpoint.json")
    with dumpPath.
  destruct (GetBool flags "export_json") as [[] err]; run_step.
  - split; [done|]. intros _. split; [|split].
    + destruct (os_OpenFile w dumpPath); [reflexivity|].
      destruct (File_Write w dumpPath _); reflexivity.
    + intros [-> ->]. reflexivity.
    + intros e.
      destruct (os_OpenFile w dumpPath); [|destruct (File_Write w dumpPath _)];
        run_step; intros [= <-]; split; reflexivity.
  - split; [|done]. intros _. split; reflexivity.
Qed.

(** X5: nothing happens before the configuration is valid.  When the spec
    flag, the spec value, the configuration file or its decoding fails, each
    command calls nothing but, at most, the read of the configuration file,
    and both end with the same error. *)
Theorem no_effect_before_configuration w flags :
  (¬ ∃ sp conf, Configured w flags sp conf) →
  (generateBeaconData_body w flags).1 `prefix_of` [EvReadInConfig configFile]
  ∧ (generateBeaconCheckpoint_body w flags).1 `prefix_of` [EvReadInConfig configFile]
  ∧ (∃ e, (generateBeaconData_body w flags).2 = Err e
          ∧ (generateBeaconCheckpoint_body w flags).2 = Err e).
Proof.
  intros Hnot.
  unfold generateBeaconData_body, generateBeaconCheckpoint_body.
  destruct (GetString flags "spec") as [spec [e|]] eqn:Hs; run_step.
  { split; [apply prefix_nil|]. split; [apply prefix_nil|]. by eexists. }
  destruct (ToSpec spec) as [sp|e] eqn:Hsp; run_step.
  2:{ split; [apply prefix_nil|]. split; [apply prefix_nil|]. by eexists. }
  destruct (viper_ReadInConfig w configFile) as [e|] eqn:Hr; run_step.
  { split; [done|]. split; [done|]. by eexists. }
  destruct (viper_Unmarshal w) as [conf|e] eqn:Hu; run_step.
  2:{ split; [done|]. split; [done|]. by eexists. }
  exfalso. apply Hnot. exists sp, conf. split; [by exists spec|done].
Qed.

(** ** Every run of the data command *)

(** One more answer of the world, in program order, with its equation. *)
Ltac data_next w :=
  run_step;
  match goal with
  | |- context [writeJSONToFile w ?d (fixtureFile ?stem ?sp)] =>
      rewrite (writeFixture_run w d stem sp)
  | |- context [writeBenchmarkDataFile w ?f ?c] =>
      rewrite (writeBenchmarkDataFile_run w f c); cbv zeta;
      change (pathToBeaconBenchmarkData +:+ "/" +:+ "fixtures.rs") with benchmarkPath
  | |- context [os_OpenFile w (fixturePath "initial-checkpoint" ?sp)] =>
      destruct (os_OpenFile w (fixturePath "initial-checkpoint" sp)) eqn:?
  | |- context [negb (?a =? ?b)] => destruct (a =? b) eqn:?
  | |- context [GetSyncCommitteePeriodUpdate w ?s ?p] =>
      destruct (GetSyncCommitteePeriodUpdate w s p) eqn:?
  | |- context [os_OpenFile w (fixturePath "sync-committee-update" ?sp)] =>
      destruct (os_OpenFile w (fixturePath "sync-committee-update" sp)) eqn:?
  | |- context [File_Write w (fixturePath "sync-committee-update" ?sp) ?c] =>
      destruct (File_Write w (fixturePath "sync-committee-update" sp) c) eqn:?
  | |- context [GetFinalizedUpdate w ?s] => destruct (GetFinalizedUpdate w s) eqn:?
  | |- context [os_OpenFile w (fixturePath "finalized-header-update" ?sp)] =>
      destruct (os_OpenFile w (fixturePath "finalized-header-update" sp)) eqn:?
  | |- context [File_Write w (fixturePath "finalized-header-update" ?sp) ?c] =>
      destruct (File_Write w (fixturePath "finalized-header-update" sp) c) eqn:?
  | |- context [if ?a <=? ?b then _ else _] => destruct (a <=? b) eqn:?
  | |- context [GetNextHeaderUpdateBySlotWithAncestryProof w ?s ?n ?p] =>
      destruct (GetNextHeaderUpdateBySlotWithAncestryProof w s n p) eqn:?
  | |- context [os_OpenFile w (fixturePath "execution-header-update" ?sp)] =>
      destruct (os_OpenFile w (fixturePath "execution-header-update" sp)) eqn:?
  | |- context [File_Write w (fixturePath "execution-header-update" ?sp) ?c] =>
      destruct (File_Write w (fixturePath "execution-header-update" sp) c) eqn:?
  | |- context [Spec_IsMainnet ?sp] => is_var sp; destruct sp
  | |- context [os_OpenFile w benchmarkPath] =>
      destruct (os_OpenFile w benchmarkPath) eqn:?
  | |- context [File_Write w benchmarkPath ?c] =>
      destruct (File_Write w benchmarkPath c) eqn:?
  end.

(** Every run of the data command, by the answers it gets: the goal is read
    as a property of the run, which is then followed once. *)
Ltac data_cases w flags :=
  unfold generateBeaconData;
  pattern (generateBeaconData_body w flags);
  let Φ := fresh "Φ" in
  match goal with |- ?P _ => set (Φ := P) end;
  unfold generateBeaconData_body; fold_fixture_names;
  repeat setup_next w flags; repeat data_next w;
  subst Φ; cbv beta; run_norm.

Ltac absent H :=
  solve [exfalso; apply list_elem_of_In in H; cbn [In] in H; intuition discriminate].

Ltac present :=
  apply list_elem_of_In; cbn [In]; repeat first [left; reflexivity | right].

(** X6: the data command logs [done] exactly when it succeeds: the line is
    in the log of a run if and only if the function literal returned nil,
    and it is then the last call of the run. *)
Theorem done_iff_success w flags :
  let run := generateBeaconData_body w flags in
  (EvLogInfo "done" ∈ run.1 ↔ run.2 = Ok tt)
  ∧ (run.2 = Ok tt → last run.1 = Some (EvLogInfo "done")).
Proof.
  cbv zeta. data_cases w flags.
  all: split; [split|]; try discriminate; try reflexivity.
  all: try (intros _; present).
  all: intros H; absent H.
Qed.

(** X7: the external calls of a run are made in one fixed order.  The
    configuration read, the beacon fetches, the thirty-second wait, the file
    opens and the render of any run of the data command are an initial part
    of the pipeline of its spec, each made at most once and none skipped, and
    all of it when the run succeeds; the checkpoint command reads the
    configuration, fetches the checkpoint and opens at most its export
    file. *)
Theorem stages_follow_the_pipeline w flags spec sp :
  GetString flags "spec" = (spec, None) →
  ToSpec spec = Ok sp →
  let run := generateBeaconData_body w flags in
  stages run.1 `prefix_of` pipeline sp
  ∧ (run.2 = Ok tt → stages run.1 = pipeline sp)
  ∧ stages (generateBeaconCheckpoint_body w flags).1 `prefix_of` checkpointPipeline.
Proof.
  intros Hs Hsp. cbv zeta. split; [|split].
  - data_cases w flags. all: same_answers.
    all: first [apply prefix_nil | eexists; reflexivity].
  - data_cases w flags. all: same_answers.
    all: first [discriminate | reflexivity].
  - checkpoint_cases w flags.
    all: first [apply prefix_nil | eexists; reflexivity].
Qed.

(** X8: the errors the data command can end with.  The error of a run is
    the one viper returned for the configuration, unwrapped, or one of the
    three consistency errors naming two numbers, or an error wrapped in one
    of the contexts of the stages and of the two writers. *)
Theorem data_error_shapes w flags e :
  (generateBeaconData_body w flags).2 = Err e →
  viper_ReadInConfig w configFile = Some e
  ∨ viper_Unmarshal w = Err e
  ∨ (∃ format a b, e = Errorf_dd format a b ∧ format ∈ consistencyFormats)
  ∨ (∃ format cause, e = Errorf_w format cause ∧ format ∈ errorContexts).
Proof.
  data_cases w flags.
  all: intros He; simplify_eq.
  all: first
         [ by left
         | by right; left
         | right; right; left; eexists _, _, _; split; [reflexivity|];
           apply list_elem_of_In; cbn [In consistencyFormats]; tauto
         | right; right; right; eexists _, _; split; [reflexivity|];
           apply list_elem_of_In; cbn [In errorContexts]; tauto ].
Qed.

(** ** File use *)

Lemma Bracketed_closed w t :
  Bracketed w t →
  closed t = filter (λ p, os_OpenFile w p = None) (opened t)
  ∧ (written t).*1 = closed t.
Proof.
  induction 1 as [|ev t Hev _ [IH1 IH2]|p t [e He] _ [IH1 IH2]|p c t Hp _ [IH1 IH2]].
  - done.
  - destruct ev; try discriminate; done.
  - unfold closed, opened, written in *. simpl in *.
    rewrite filter_cons_False by (by rewrite He). done.
  - unfold closed, opened, written in *. simpl in *.
    rewrite filter_cons_True by done. split; f_equal; assumption.
Qed.

Lemma generateBeaconData_bracketed w flags :
  Bracketed w (generateBeaconData w flags).1.
Proof.
  data_cases w flags.
  all: repeat first
         [ apply Bracketed_nil
         | apply Bracketed_block; [assumption|]
         | apply Bracketed_refused; [by eexists|]
         | apply Bracketed_other; [reflexivity|] ].
Qed.

Lemma generateBeaconCheckpoint_bracketed w flags :
  Bracketed w (generateBeaconCheckpoint w flags).1.
Proof.
  checkpoint_cases w flags.
  all: repeat first
         [ apply Bracketed_nil
         | apply Bracketed_block; [assumption|]
         | apply Bracketed_refused; [by eexists|]
         | apply Bracketed_other; [reflexivity|] ].
Qed.

(** X9: no file is left open and none is touched unopened.  In every run
    of either command a file that cannot be opened is neither written nor
    closed, and a file that is opened is written once and closed at once,
    also when the write fails; so the files closed, and the files written,
    are the files that were opened successfully, in that order. *)
Theorem files_are_bracketed w flags :
  let data := (generateBeaconData w flags).1 in
  let checkpoint := (generateBeaconCheckpoint w flags).1 in
  Bracketed w data
  ∧ Bracketed w checkpoint
  ∧ closed data = filter (λ p, os_OpenFile w p = None) (opened data)
  ∧ closed checkpoint = filter (λ p, os_OpenFile w p = None) (opened checkpoint)
  ∧ (written data).*1 = closed data
  ∧ (written checkpoint).*1 = closed checkpoint.
Proof.
  cbv zeta.
  pose proof (generateBeaconData_bracketed w flags) as Hd.
  pose proof (generateBeaconCheckpoint_bracketed w flags) as Hc.
  destruct (Bracketed_closed _ _ Hd) as [? ?], (Bracketed_closed _ _ Hc) as [? ?].
  done.
Qed.

(** X10: the three later [created ... file] lines are truthful and the first
    is not.  The log lines for the sync-committee-update, finalized-header-
    update and execution-header-update fixtures are only in the log of a run
    in which that file was created and written; the line for the initial
    checkpoint is logged whenever the file was tried, created or not. *)
Theorem created_logs_follow_writes w flags spec sp :
  GetString flags "spec" = (spec, None) →
  ToSpec spec = Ok sp →
  let t := (generateBeaconData_body w flags).1 in
  (EvLogInfo "created sync committee update file" ∈ t →
     WrittenTo w t (fixturePath "sync-committee-update" sp))
  ∧ (EvLogInfo "created finalized header update file" ∈ t →
     WrittenTo w t (fixturePath "finalized-header-update" sp))
  ∧ (EvLogInfo "created header update file" ∈ t →
     WrittenTo w t (fixturePath "execution-header-update" sp))
  ∧ (EvLogInfo "created initial sync file" ∈ t
     ↔ EvOpenFile (fixturePath "initial-checkpoint" sp) ∈ t).
Proof.
  intros Hs Hsp. cbv zeta. data_cases w flags.
  all: same_answers.
  all: repeat apply conj.
  all: try (intros H; absent H).
  all: try (intros _; eexists; split; [unfold written; simpl; present|by split]).
  all: try (intros _; present).
Qed.

(** X15: a file holds what was fetched.  Whatever a run of the data
    command writes, to whatever file, is the JSON of the artifact fetched for
    that fixture in this run, as [json.MarshalIndent] gave it, or, for
    [fixtures.rs] on mainnet, the rendering of the four fetched artifacts
    with their hashes stripped; nothing else is ever written. *)
Theorem files_hold_what_was_fetched w flags sp conf path contents :
  Configured w flags sp conf →
  (path, contents) ∈ written (generateBeaconData_body w flags).1 →
  Provenance w (syncerOf flags conf sp) sp path contents.
Proof.
  intros ((spec & Hs & Hsp) & Hr & Hu).
  data_cases w flags. all: same_answers.
  all: intros H; apply list_elem_of_In in H; unfold written in H; simpl in H.
  all: unfold Provenance, syncCommitteePeriod, initialSyncHeaderSlot, finalizedSlotOf,
         proofOf, benchmarkData, syncerOf.
  all: repeat match type of H with
              | _ ∨ _ => destruct H as [H|H]
              | False => destruct H
              end.
  all: injection H as <- <-.
  all: first
         [ left; eexists; split; [eassumption|split; reflexivity]
         | right; left; eexists _, _; split; [eassumption|];
           split; [eassumption|split; reflexivity]
         | right; right; left; eexists; split; [eassumption|split; reflexivity]
         | right; right; right; left; eexists _, _; split; [eassumption|];
           split; [eassumption|split; reflexivity]
         | right; right; right; right; eexists _, _, _, _;
           split; [eassumption|]; split; [eassumption|]; split; [eassumption|];
           split; [eassumption|]; split; [reflexivity|split; reflexivity] ].
Qed.

(** ** The syncer *)

(** X11: one syncer per run.  Every beacon call of a run of either command
    is made on the syncer built from the [url] flag and the timing constants
    the configuration gives for the active spec. *)
Theorem one_syncer_per_run w flags sp conf :
  Configured w flags sp conf →
  Forall (λ s, s = syncerOf flags conf sp) (syncers (generateBeaconData_body w flags).1)
  ∧ Forall (λ s, s = syncerOf flags conf sp)
      (syncers (generateBeaconCheckpoint_body w flags).1).
Proof.
  intros ((spec & Hs & Hsp) & Hr & Hu). split.
  - data_cases w flags. all: same_answers.
    all: unfold syncers; cbn [omap list_omap syncerOfEvent].
    all: repeat (apply Forall_cons; split; [reflexivity|]); by apply Forall_nil.
  - checkpoint_cases w flags. all: same_answers.
    all: unfold syncers; cbn [omap list_omap syncerOfEvent].
    all: repeat (apply Forall_cons; split; [reflexivity|]); by apply Forall_nil.
Qed.

(** ** Failing calls *)

Lemma checkpoint_not_initial w flags :
  Forall (λ ev, onInitialCheckpoint ev = false) (generateBeaconCheckpoint_body w flags).1.
Proof.
  checkpoint_cases w flags.
  all: repeat (apply Forall_cons; split; [reflexivity|]); by apply Forall_nil.
Qed.

Lemma generateBeaconCheckpoint_failfast w flags :
  FailFast w (generateBeaconCheckpoint_body w flags).
Proof.
  unfold generateBeaconCheckpoint_body.
  apply failfast_bind; [failfast_step|intros spec].
  apply failfast_bind; [failfast_step|intros sp]. cbv zeta.
  apply failfast_bind; [failfast_step|intros ?].
  apply failfast_bind; [failfast_step|intros conf].
  apply failfast_bind; [failfast_step|intros cp].
  apply failfast_bind; [|intros ?; failfast_step].
  destruct (GetBool flags "export_json").1; [|apply failfast_nil].
  apply failfast_wrapf. rewrite writeJSONToFile_run. cbv zeta.
  destruct (os_OpenFile w _) eqn:Ho; [|destruct (File_Write w _ _) eqn:Hw];
    apply failFast_sound; unfold failFast, checkedFailure, answeredError;
    rewrite ?Ho, ?Hw; reflexivity.
Qed.

(** X13: a failing call ends the run.  In every run of either command, a
    call that is answered with an error (the configuration read, a beacon
    fetch, the creation or the write of a file) is followed by nothing but
    the deferred close of that file, and the function literal returns an
    error; the one exception is the write of the initial-checkpoint fixture
    by the data command. *)
Theorem failing_calls_end_the_run w flags t1 ev t2 :
  answeredError w ev = true →
  ((generateBeaconData_body w flags).1 = t1 ++ ev :: t2 →
   onInitialCheckpoint ev = false →
   forallb isClose t2 = true ∧ ∃ e, (generateBeaconData_body w flags).2 = Err e)
  ∧ ((generateBeaconCheckpoint_body w flags).1 = t1 ++ ev :: t2 →
     forallb isClose t2 = true ∧ ∃ e, (generateBeaconCheckpoint_body w flags).2 = Err e).
Proof.
  intros Hev. split.
  - intros Ht Hinit. apply (generateBeaconData_failfast w flags t1 ev t2 Ht).
    unfold checkedFailure. by rewrite Hev, Hinit.
  - intros Ht. apply (generateBeaconCheckpoint_failfast w flags t1 ev t2 Ht).
    pose proof (checkpoint_not_initial w flags) as Hall.
    rewrite Ht in Hall. apply Forall_app in Hall as [_ Hall].
    apply Forall_cons in Hall as [Hinit _].
    unfold checkedFailure. by rewrite Hev, Hinit.
Qed.

(** ** What is logged *)


(** ** The period check, in slots *)

(** The quotient by [P] changes over five slots exactly in the last five
    slots of a period. *)
Lemma period_of_next_slots (S P : Z) :
  0 < P → 0 ≤ S → (S / P = (S + 5) / P ↔ S mod P + 5 < P).
Proof.
  intros HP HS.
  pose proof (Z.div_mod S P ltac:(lia)) as Hdm.
  pose proof (Z.mod_pos_bound S P HP) as Hr.
  assert ((S + 5) / P = S / P + (S mod P + 5) / P) as ->.
  { rewrite Hdm at 1. rewrite <- Z.add_assoc, (Z.mul_comm P), Z.div_add_l by lia.
    reflexivity. }
  split.
  - intros Heq. destruct (Z.lt_ge_cases (S mod P + 5) P) as [|Hge]; [done|].
    pose proof (Z.div_str_pos (S mod P + 5) P ltac:(lia)). lia.
  - intros Hlt. rewrite (Z.div_small (S mod P + 5) P) by lia. lia.
Qed.

(** X12: the period check refuses the last five slots of a period.  With a
    syncer that computes the sync period of a slot as the slot divided by
    the slots of a period [P], and a checkpoint slot [S] whose sum with 5
    does not overflow, the run ends with the period error, before the
    sync-committee fetch, exactly when [S mod P + 5 >= P]; otherwise the
    sync-committee update is fetched, once, for period [S / P]. *)
Theorem period_drift_window w flags sp conf cp :
  Configured w flags sp conf →
  let s := syncerOf flags conf sp in
  let P := syncer_slotsInEpoch s * syncer_epochsPerSyncCommitteePeriod s in
  let S := initialSyncHeaderSlot w cp in
  let run := generateBeaconData_body w flags in
  GetCheckpoint w s = Ok cp →
  (∀ slot, ComputeSyncPeriodAtSlot w s slot = slot / P) →
  0 < P → 0 ≤ S → S + 5 < 2 ^ 64 →
  (P ≤ S mod P + 5 →
     run.2 = Err (Errorf_dd
                    "initialSyncPeriod %d should be consistent with syncCommitteePeriod %d"
                    (S / P) ((S + 5) / P))
     ∧ syncCommitteeFetches run.1 = [])
  ∧ (S mod P + 5 < P → syncCommitteeFetches run.1 = [S / P]).
Proof.
  intros Hconf s P S run Hcp Hdiv HP HS Hmax.
  assert (U64.add S 5 = S + 5) as Hadd.
  { unfold U64.add, U64.wrap, U64.modulus. apply Z.mod_small. lia. }
  pose proof (period_of_next_slots S P HP HS) as Hwindow.
  subst run. pattern (generateBeaconData_body w flags).
  match goal with |- ?Q _ => set (Φ := Q) end.
  subst s. run_to_checkpoint Hconf Hcp.
  rewrite !Hdiv. fold S. rewrite Hadd. fold P.
  destruct (S / P =? (S + 5) / P) eqn:Heq.
  - apply Z.eqb_eq in Heq. rewrite <- Heq.
    repeat data_next w. all: subst Φ; cbv beta; run_norm.
    all: split; [intros Hlast; apply Hwindow in Heq; lia|intros _; reflexivity].
  - apply Z.eqb_neq in Heq.
    repeat data_next w. all: subst Φ; cbv beta; run_norm.
    all: split; [intros _; split; reflexivity|intros Hlt; apply Hwindow in Hlt; done].
Qed.

(** ** The further properties at the stub world *)

Lemma string_flags_read_back_witness :
  GetString (Stub.flags "mainnet") "url" = ("http://127.0.0.1:9596", None)
  ∧ GetString
      (<["spec" := StringFlag "mainnet"]>
         (<["url" := StringFlag "http://beacon:5052"]> (Stub.checkpointFlags "minimal")))
      "spec"
    = ("mainnet", None).
Proof.
  split.
  - apply (string_flags_read_back generateBeaconDataCmd [("spec", "mainnet")]
             (Stub.flags "mainnet") "url" "http://127.0.0.1:9596");
      reflexivity.
  - apply (string_flags_read_back generateBeaconCheckpointCmd
             [("spec", "minimal"); ("url", "http://beacon:5052"); ("spec", "mainnet")]
             _ "spec" String.EmptyString);
      reflexivity.
Defined.

Lemma flag_lookup_failures_witness :
  generateBeaconData_body (Stub.world Stub.scenario) ∅
  = ([], Err (Errorf_w "get active spec: %w"
                (Errorf_s "flag accessed but not defined: %s" "spec")))
  ∧ EvGetCheckpoint (syncer_New String.EmptyString 32 256 8192 Mainnet)
    ∈ (generateBeaconData_body (Stub.world Stub.scenario) noUrlFlags).1.
Proof.
  pose proof (flag_lookup_failures (Stub.world Stub.scenario) ∅) as [Hspec _].
  pose proof (flag_lookup_failures (Stub.world Stub.scenario) noUrlFlags) as [_ Hurl].
  split.
  - apply (Hspec String.EmptyString). reflexivity.
  - refine (proj1 (proj2 (Hurl Mainnet Stub.config
                            (Errorf_s "flag accessed but not defined: %s" "url")
                            eq_refl _))).
    split; [exists "mainnet"; split; reflexivity|split; reflexivity].
Defined.

Lemma checkpoint_call_determines_payload_witness :
  (types_EncodeToBytes (Stub.world Stub.scenario) Stub.checkpoint).1
  = [Byte.x01; Byte.xab; Byte.xff].
Proof.
  apply checkpoint_call_determines_payload. reflexivity.
Defined.

Lemma stub_configured_export sc :
  Configured (Stub.world sc) exportFlags Mainnet Stub.config.
Proof. split; [exists "mainnet"; split; reflexivity|split; reflexivity]. Qed.

Lemma checkpoint_export_branch_witness :
  generateBeaconCheckpoint_body (Stub.world Stub.scenario) exportFlags
  = ([EvReadInConfig configFile; EvGetCheckpoint Stub.mainnetSyncer;
      EvOpenFile dumpPath; EvWrite dumpPath [Byte.x7b; Byte.x31; Byte.x7d];
      EvClose dumpPath; EvPrintln "0x320001abff"], Ok tt)
  ∧ printed
      (generateBeaconCheckpoint_body
         (Stub.world (Stub.withUnwritable [dumpPath] Stub.scenario)) exportFlags).1
    = []
  ∧ opened
      (generateBeaconCheckpoint_body (Stub.world Stub.scenario)
         (Stub.checkpointFlags "mainnet")).1
    = [].
Proof.
  split; [|split].
  - destruct (checkpoint_export_branch (Stub.world Stub.scenario) exportFlags Mainnet
                Stub.config Stub.checkpoint (stub_configured_export _) eq_refl)
      as (_ & Hexport).
    destruct (Hexport eq_refl) as (_ & Hwritten & _).
    apply Hwritten. split; reflexivity.
  - destruct (checkpoint_export_branch
                (Stub.world (Stub.withUnwritable [dumpPath] Stub.scenario)) exportFlags
                Mainnet Stub.config Stub.checkpoint (stub_configured_export _) eq_refl)
      as (_ & Hexport).
    destruct (Hexport eq_refl) as (_ & _ & Hfail).
    apply (Hfail (Errorf_w "create file: %w" (errors_New "open: permission denied"))).
    vm_compute. reflexivity.
  - destruct (checkpoint_export_branch (Stub.world Stub.scenario)
                (Stub.checkpointFlags "mainnet") Mainnet Stub.config Stub.checkpoint
                (stub_configured_checkpoint _) eq_refl) as (Hplain & _).
    apply Hplain. reflexivity.
Defined.

Lemma no_effect_before_configuration_witness :
  (generateBeaconData_body (Stub.world Stub.scenario) (Stub.flags "testnet")).1
    `prefix_of` [EvReadInConfig configFile]
  ∧ (generateBeaconCheckpoint_body (Stub.world Stub.scenario) (Stub.flags "testnet")).1
      `prefix_of` [EvReadInConfig configFile]
  ∧ (∃ e, (generateBeaconData_body (Stub.world Stub.scenario) (Stub.flags "testnet")).2
          = Err e
          ∧ (generateBeaconCheckpoint_body (Stub.world Stub.scenario)
               (Stub.flags "testnet")).2 = Err e).
Proof.
  apply no_effect_before_configuration.
  intros (sp & conf & (spec & Hs & Hsp) & _).
  vm_compute in Hs. injection Hs as <-. vm_compute in Hsp. discriminate.
Defined.

Lemma stages_follow_the_pipeline_witness :
  stages (generateBeaconData_body (Stub.world Stub.scenario) (Stub.flags "minimal")).1
  = pipeline Minimal
  ∧ stages (generateBeaconData_body (Stub.world Stub.drift) (Stub.flags "mainnet")).1
      `prefix_of` pipeline Mainnet
  ∧ stages
      (generateBeaconCheckpoint_body (Stub.world Stub.scenario)
         (Stub.checkpointFlags "mainnet")).1
      `prefix_of` checkpointPipeline.
Proof.
  split; [|split].
  - apply (stages_follow_the_pipeline (Stub.world Stub.scenario) (Stub.flags "minimal")
             "minimal" Minimal eq_refl eq_refl).
    vm_compute. reflexivity.
  - apply (stages_follow_the_pipeline (Stub.world Stub.drift) (Stub.flags "mainnet")
             "mainnet" Mainnet eq_refl eq_refl).
  - apply (stages_follow_the_pipeline (Stub.world Stub.scenario)
             (Stub.checkpointFlags "mainnet") "mainnet" Mainnet eq_refl eq_refl).
Defined.

Lemma data_error_shapes_witness :
  let w := Stub.world Stub.unwritableSync in
  let e := Errorf_w "write sync committee update to file: %w"
             (Errorf_w "create file: %w" (errors_New "open: permission denied")) in
  viper_ReadInConfig w configFile = Some e
  ∨ viper_Unmarshal w = Err e
  ∨ (∃ format a b, e = Errorf_dd format a b ∧ format ∈ consistencyFormats)
  ∨ (∃ format cause, e = Errorf_w format cause ∧ format ∈ errorContexts).
Proof.
  cbv zeta.
  apply (data_error_shapes (Stub.world Stub.unwritableSync) (Stub.flags "mainnet")).
  vm_compute. reflexivity.
Defined.

Lemma created_logs_follow_writes_witness :
  WrittenTo (Stub.world Stub.scenario)
    (generateBeaconData_body (Stub.world Stub.scenario) (Stub.flags "mainnet")).1
    (fixturePath "sync-committee-update" Mainnet)
  ∧ EvLogInfo "created initial sync file"
    ∈ (generateBeaconData_body (Stub.world Stub.unwritableCheckpoint)
         (Stub.flags "mainnet")).1.
Proof.
  split.
  - apply (created_logs_follow_writes (Stub.world Stub.scenario) (Stub.flags "mainnet")
             "mainnet" Mainnet eq_refl eq_refl).
    apply list_elem_of_In. vm_compute. tauto.
  - apply (created_logs_follow_writes (Stub.world Stub.unwritableCheckpoint)
             (Stub.flags "mainnet") "mainnet" Mainnet eq_refl eq_refl).
    apply list_elem_of_In. vm_compute. tauto.
Defined.

Lemma one_syncer_per_run_witness :
  syncers (generateBeaconData_body (Stub.world Stub.scenario) (Stub.flags "minimal")).1
  = [Stub.minimalSyncer; Stub.minimalSyncer; Stub.minimalSyncer; Stub.minimalSyncer]
  ∧ Forall (λ s, s = Stub.minimalSyncer)
      (syncers
         (generateBeaconData_body (Stub.world Stub.scenario) (Stub.flags "minimal")).1).
Proof.
  split; [vm_compute; reflexivity|].
  apply (one_syncer_per_run (Stub.world Stub.scenario) (Stub.flags "minimal") Minimal
           Stub.config (stub_configured_minimal _)).
Defined.

Lemma failing_calls_end_the_run_witness :
  (∃ e, (generateBeaconData_body (Stub.world Stub.unwritableSync)
           (Stub.flags "mainnet")).2 = Err e)
  ∧ (∃ e, (generateBeaconCheckpoint_body
             (Stub.world (Stub.withUnwritable [dumpPath] Stub.scenario))
             exportFlags).2 = Err e).
Proof.
  split.
  - refine (proj2 (proj1 (failing_calls_end_the_run (Stub.world Stub.unwritableSync)
                            (Stub.flags "mainnet")
                            (removelast
                               (generateBeaconData_body (Stub.world Stub.unwritableSync)
                                  (Stub.flags "mainnet")).1)
                            (EvOpenFile (fixturePath "sync-committee-update" Mainnet))
                            [] _) _ _)); vm_compute; reflexivity.
  - refine (proj2 (proj2 (failing_calls_end_the_run
                            (Stub.world (Stub.withUnwritable [dumpPath] Stub.scenario))
                            exportFlags
                            [EvReadInConfig configFile; EvGetCheckpoint Stub.mainnetSyncer]
                            (EvOpenFile dumpPath) [] _) _)); vm_compute; reflexivity.
Defined.

Lemma files_hold_what_was_fetched_witness :
  Provenance (Stub.world Stub.scenario) Stub.mainnetSyncer Mainnet
    (fixturePath "finalized-header-update" Mainnet) [Byte.x7b; Byte.x32; Byte.x7d]
  ∧ Provenance (Stub.world Stub.scenario) Stub.minimalSyncer Minimal
      (fixturePath "execution-header-update" Minimal) [Byte.x7b; Byte.x33; Byte.x7d].
Proof.
  split.
  - apply (files_hold_what_was_fetched (Stub.world Stub.scenario) (Stub.flags "mainnet")
             Mainnet Stub.config _ _ (stub_configured _)).
    apply list_elem_of_In. vm_compute. tauto.
  - apply (files_hold_what_was_fetched (Stub.world Stub.scenario) (Stub.flags "minimal")
             Minimal Stub.config _ _ (stub_configured_minimal _)).
    apply list_elem_of_In. vm_compute. tauto.
Defined.

Lemma period_drift_window_witness :
  (generateBeaconData_body (Stub.world Stub.drift) (Stub.flags "mainnet")).2
  = Err (Errorf_dd
           "initialSyncPeriod %d should be consistent with syncCommitteePeriod %d" 0 1)
  ∧ syncCommitteeFetches
      (generateBeaconData_body (Stub.world Stub.scenario) (Stub.flags "mainnet")).1
    = [0].
Proof.
  split.
  - refine (proj1 (proj1 (period_drift_window (Stub.world Stub.drift)
                            (Stub.flags "mainnet") Mainnet Stub.config Stub.checkpoint
                            (stub_configured _) eq_refl (λ _, eq_refl) _ _ _) _));
      vm_compute; first [reflexivity | discriminate].
  - refine (proj2 (period_drift_window (Stub.world Stub.scenario)
                     (Stub.flags "mainnet") Mainnet Stub.config Stub.checkpoint
                     (stub_configured _) eq_refl (λ _, eq_refl) _ _ _) _);
      vm_compute; first [reflexivity | discriminate].
Defined.


